(** * Kursverwaltung dashboard: the view-model computations of
      [src/pages/DashboardOverview.tsx]

    The component keeps five record collections in its state and derives, on
    every render, the figures it shows: total revenue, paid and open
    enrollments, active courses, courses per instructor, the five most recent
    enrollments and two label lookups.  This file embeds those computations
    and the loader that fills the state, and proves the properties the
    specification states about them. *)

From Stdlib Require Import List String Ascii Bool ZArith Lia.
From Stdlib Require Import Sorting.Sorted Sorting.Permutation.
From Stdlib Require Import Floats.PrimFloat.
Import ListNotations.

Local Open Scope string_scope.
Local Open Scope list_scope.

(** ** The JavaScript values and built-ins the component relies on *)

Module JS.

(** A JavaScript [number] is an IEEE 754 binary64 value. *)
Definition number : Type := float.

(** [ToBoolean]: what [if], [!], [||] and [filter] make of a value. *)
Class ToBoolean (A : Type) : Type := toBoolean : A -> bool.

#[export] Instance ToBoolean_bool : ToBoolean bool := fun b => b.

#[export] Instance ToBoolean_string : ToBoolean string :=
  fun s => negb (String.eqb s "").

(** [0], [-0] and [NaN] are falsy, every other number is truthy. *)
#[export] Instance ToBoolean_number : ToBoolean number :=
  fun x => negb (is_zero x || is_nan x).

(** [undefined] is falsy. *)
#[export] Instance ToBoolean_option {A : Type} `{ToBoolean A} : ToBoolean (option A) :=
  fun o => match o with Some v => toBoolean v | None => false end.

(** [x || d] for [x : T | undefined] and [d : T]. *)
Definition or_else {A : Type} `{ToBoolean A} (x : option A) (d : A) : A :=
  match x with
  | Some v => if toBoolean v then v else d
  | None => d
  end.

(** [o?.f]: [undefined] when [o] is, the member otherwise. *)
Definition chain {A B : Type} (o : option A) (f : A -> option B) : option B :=
  match o with
  | Some v => f v
  | None => None
  end.

(** [s === x] for a string [s] and [x : string | null]. *)
Definition strict_eq (s : string) (x : option string) : bool :=
  match x with
  | Some t => String.eqb s t
  | None => false
  end.

(** [arr.length] as a number of the language. *)
Definition length {A : Type} (arr : list A) : Z := Z.of_nat (List.length arr).

(** [arr.slice(0, n)]. *)
Definition slice0 {A : Type} (n : nat) (arr : list A) : list A := firstn n arr.

(** [s.split(' ')[0]]: the characters before the first U+0020; the whole
    string when it has none, the empty string when [s] starts with one or is
    empty (the array [split] returns is never empty). *)
Fixpoint split_space_head (s : string) : string :=
  match s with
  | EmptyString => EmptyString
  | String c r => if Ascii.eqb c " "%char then EmptyString else String c (split_space_head r)
  end.

(** [Array.prototype.sort(cmp)] is stable (ECMAScript 2019): [a] stays before
    a later [b] unless [cmp a b > 0].  Insertion from the right realises it. *)
Fixpoint sort_insert {A : Type} (cmp : A -> A -> Z) (x : A) (l : list A) : list A :=
  match l with
  | [] => [x]
  | y :: r => if (cmp x y <=? 0)%Z then x :: y :: r else y :: sort_insert cmp x r
  end.

Fixpoint sort {A : Type} (cmp : A -> A -> Z) (arr : list A) : list A :=
  match arr with
  | [] => []
  | x :: r => sort_insert cmp x (sort cmp r)
  end.

(** [arr[i]]: [undefined] past the end of the array. *)
Definition at_index {A : Type} (arr : list A) (i : nat) : option A := nth_error arr i.

(** [arr.map((x, index) => f x index)]. *)
Fixpoint map_index_from {A B : Type} (f : A -> nat -> B) (i : nat) (arr : list A) : list B :=
  match arr with
  | [] => []
  | x :: r => f x i :: map_index_from f (S i) r
  end.

Definition map_index {A B : Type} (f : A -> nat -> B) (arr : list A) : list B :=
  map_index_from f 0 arr.

(** [arr.map(f)] for a callback that may throw: the first throw ends it. *)
Fixpoint map_throwing {A B E : Type} (f : A -> E + B) (arr : list A) : E + list B :=
  match arr with
  | [] => inr []
  | x :: r =>
      match f x with
      | inl e => inl e
      | inr y =>
          match map_throwing f r with
          | inl e => inl e
          | inr ys => inr (y :: ys)
          end
      end
  end.

End JS.

Import JS.

(** ** Records of the store *)

(** Modelled from the spec: the record types of [@/types/app] are not in the
    sources.  Every record carries a stable identifier and a field bag
    (spec, section 6); the bags hold the fields the component reads, all
    optional as the component treats them. *)
Record Rec (F : Type) : Type := mkRec { record_id : string; fields : F }.

Arguments mkRec {F} _ _.
Arguments record_id {F} _.
Arguments fields {F} _.

Module Dozenten.
Record Fields : Type := mk { name : option string }.
Definition t : Type := Rec Fields.
End Dozenten.

Module Raeume.
Record Fields : Type := mk { }.
Definition t : Type := Rec Fields.
End Raeume.

Module Teilnehmer.
Record Fields : Type := mk { name : option string }.
Definition t : Type := Rec Fields.
End Teilnehmer.

Module Kurse.
Record Fields : Type := mk {
  titel : option string;
  preis : option number;
  enddatum : option string;
  dozent : option string
}.
Definition t : Type := Rec Fields.
End Kurse.

Module Anmeldungen.
Record Fields : Type := mk {
  kurs : option string;
  teilnehmer : option string;
  anmeldedatum : option string;
  bezahlt : option bool
}.
Definition t : Type := Rec Fields.
End Anmeldungen.

(** One bar of the courses-per-instructor chart. *)
Module Bar.
Record t : Type := mk { name : string; kurse : Z }.
End Bar.

(** One slice of the payment-status pie. *)
Module Slice.
Record t : Type := mk { name : string; value : Z }.
End Slice.

Definition CHART_COLORS : list string :=
  ["oklch(0.55 0.2 270)"; "oklch(0.65 0.18 300)"; "oklch(0.6 0.15 200)";
   "oklch(0.7 0.15 150)"; "oklch(0.75 0.12 50)"].

(** A figure of the hero or of a KPI card: a text or a number. *)
Inductive Shown : Type :=
| Txt (s : string)
| Num (n : Z).

(** A part of the page that shows its content or, without content, a text. *)
Inductive Panel (A : Type) : Type :=
| Filled (content : A)
| Placeholder (text : string).

Arguments Filled {A} _.
Arguments Placeholder {A} _.

(** A row of the table of recent enrollments: its four cells, and the colours
    of the status badge. *)
Module Row.
Record t : Type := mk {
  teilnehmer : string;
  kurs : string;
  datum : string;
  badge : string;
  status : string
}.
End Row.

(** ** Dates: the part of [date-fns] and of [Date] the component uses *)

(** A [Date] is its time value in milliseconds; [None] is the Invalid Date,
    whose time value is [NaN]. *)
Definition Date : Type := option Z.

(** [isAfter(date, dateToCompare)]: a comparison of time values, false as soon
    as one of them is [NaN]. *)
Definition isAfter (date dateToCompare : Date) : bool :=
  match date, dateToCompare with
  | Some t, Some u => (u <? t)%Z
  | _, _ => false
  end.

(** What [format] of [date-fns] throws when it is given the Invalid Date. *)
Inductive RangeError : Type := InvalidTimeValue.

(** The wall clock: its [n]-th reading.  [new Date()] takes the next one. *)
Definition Clock : Type := nat -> Z.

Definition Reads (A : Type) : Type := nat -> A * nat.

Definition new_Date (clock : Clock) : Reads Date :=
  fun n => (Some (clock n), S n).

(** [arr.filter(p)] for a callback that reads the clock. *)
Fixpoint filter_reading {A : Type} (p : A -> Reads bool) (arr : list A) : Reads (list A) :=
  fun n =>
    match arr with
    | [] => ([], n)
    | x :: r =>
        let (keep, n1) := p x n in
        let (rest, n2) := filter_reading p r n1 in
        (if keep then x :: rest else rest, n2)
    end.

(** ** Loading: promises, the console and the state of the component *)

Module Promise.

(** A settled promise: when it settled, and how ([inl] a rejection with its
    reason, [inr] a fulfilment with its value). *)
Record t (Err A : Type) : Type := mk { settledAt : nat; settlement : Err + A }.

Arguments mk {Err A} _ _.
Arguments settledAt {Err A} _.
Arguments settlement {Err A} _.

(** Two promises awaited together: fulfilled when both are, otherwise rejected
    with the reason of the one that rejected first. *)
Definition both {Err A B : Type} (p : t Err A) (q : t Err B) : t Err (A * B) :=
  match settlement p, settlement q with
  | inr a, inr b => mk (Nat.max (settledAt p) (settledAt q)) (inr (a, b))
  | inl e, inr _ => mk (settledAt p) (inl e)
  | inr _, inl e => mk (settledAt q) (inl e)
  | inl e1, inl e2 =>
      if (settledAt q <? settledAt p)%nat then mk (settledAt q) (inl e2)
      else mk (settledAt p) (inl e1)
  end.

(** [Promise.all([p1, p2, p3, p4, p5])]. *)
Definition all {Err A B C D E : Type}
    (p1 : t Err A) (p2 : t Err B) (p3 : t Err C) (p4 : t Err D) (p5 : t Err E)
    : t Err (A * B * C * D * E) :=
  let p := both p1 (both p2 (both p3 (both p4 p5))) in
  mk (settledAt p)
     (match settlement p with
      | inl e => inl e
      | inr (a, (b, (c, (d, e)))) => inr (a, b, c, d, e)
      end).

End Promise.

(** What each request of the service settles to. *)
Module LivingAppsService.
Record t (Err : Type) : Type := mk {
  getDozenten : Promise.t Err (list Dozenten.t);
  getRaeume : Promise.t Err (list Raeume.t);
  getTeilnehmer : Promise.t Err (list Teilnehmer.t);
  getKurse : Promise.t Err (list Kurse.t);
  getAnmeldungen : Promise.t Err (list Anmeldungen.t)
}.

Arguments mk {Err} _ _ _ _ _.
Arguments getDozenten {Err} _.
Arguments getRaeume {Err} _.
Arguments getTeilnehmer {Err} _.
Arguments getKurse {Err} _.
Arguments getAnmeldungen {Err} _.
End LivingAppsService.

(** The [useState] cells of the component. *)
Module State.
Record t : Type := mk {
  dozenten : list Dozenten.t;
  raeume : list Raeume.t;
  teilnehmer : list Teilnehmer.t;
  kurse : list Kurse.t;
  anmeldungen : list Anmeldungen.t;
  loading : bool
}.

Definition initial : t := mk [] [] [] [] [] true.
End State.

Inductive Collection : Type := cDozenten | cRaeume | cTeilnehmer | cKurse | cAnmeldungen.

(** What the loader does that can be seen from outside the component. *)
Inductive Event (Err : Type) : Type :=
| Request (c : Collection)
| ConsoleError (message : string) (reason : Err).

Arguments Request {Err} _.
Arguments ConsoleError {Err} _ _.

Record World (Err : Type) : Type := mkWorld { state : State.t; trace : list (Event Err) }.

Arguments mkWorld {Err} _ _.
Arguments state {Err} _.
Arguments trace {Err} _.

(** Computations of the loader: they change the world and return or throw. *)
Definition Eff (Err A : Type) : Type := World Err -> (Err + A) * World Err.

Definition ret {Err A : Type} (v : A) : Eff Err A := fun w => (inr v, w).

Definition bind {Err A B : Type} (c : Eff Err A) (k : A -> Eff Err B) : Eff Err B :=
  fun w =>
    match c w with
    | (inr v, w1) => k v w1
    | (inl e, w1) => (inl e, w1)
    end.

Notation "x <- c ;; k" := (bind c (fun x => k))
  (at level 61, c at next level, right associativity).
Notation "c ;;; k" := (bind c (fun _ => k))
  (at level 61, right associativity).

(** [await p]: the value of a fulfilled promise; a rejected one throws its reason. *)
Definition await {Err A : Type} (p : Promise.t Err A) : Eff Err A :=
  fun w => (Promise.settlement p, w).

(** [try { body } catch (e) { handler } finally { final }]. *)
Definition try_catch_finally {Err : Type}
    (body : Eff Err unit) (handler : Err -> Eff Err unit) (final : Eff Err unit)
    : Eff Err unit :=
  fun w =>
    let (r, w1) := body w in
    let (r1, w2) := match r with
                    | inl e => handler e w1
                    | inr v => (inr v, w1)
                    end in
    let (r2, w3) := final w2 in
    match r2 with
    | inl e => (inl e, w3)
    | inr _ => (r1, w3)
    end.

Definition emit {Err : Type} (ev : Event Err) : Eff Err unit :=
  fun w => (inr tt, mkWorld (state w) (trace w ++ [ev])).

Definition console_error {Err : Type} (message : string) (reason : Err) : Eff Err unit :=
  emit (ConsoleError message reason).

(** A call of the service: the request goes out and its promise comes back. *)
Definition call {Err A : Type} (c : Collection) (p : Promise.t Err A) : Eff Err (Promise.t Err A) :=
  emit (Request c) ;;; ret p.

Definition set_state {Err : Type} (f : State.t -> State.t) : Eff Err unit :=
  fun w => (inr tt, mkWorld (f (state w)) (trace w)).

Definition setDozenten {Err : Type} (d : list Dozenten.t) : Eff Err unit :=
  set_state (fun s => State.mk d (State.raeume s) (State.teilnehmer s) (State.kurse s)
                               (State.anmeldungen s) (State.loading s)).

Definition setRaeume {Err : Type} (r : list Raeume.t) : Eff Err unit :=
  set_state (fun s => State.mk (State.dozenten s) r (State.teilnehmer s) (State.kurse s)
                               (State.anmeldungen s) (State.loading s)).

Definition setTeilnehmer {Err : Type} (t : list Teilnehmer.t) : Eff Err unit :=
  set_state (fun s => State.mk (State.dozenten s) (State.raeume s) t (State.kurse s)
                               (State.anmeldungen s) (State.loading s)).

Definition setKurse {Err : Type} (k : list Kurse.t) : Eff Err unit :=
  set_state (fun s => State.mk (State.dozenten s) (State.raeume s) (State.teilnehmer s) k
                               (State.anmeldungen s) (State.loading s)).

Definition setAnmeldungen {Err : Type} (a : list Anmeldungen.t) : Eff Err unit :=
  set_state (fun s => State.mk (State.dozenten s) (State.raeume s) (State.teilnehmer s)
                               (State.kurse s) a (State.loading s)).

Definition setLoading {Err : Type} (l : bool) : Eff Err unit :=
  set_state (fun s => State.mk (State.dozenten s) (State.raeume s) (State.teilnehmer s)
                               (State.kurse s) (State.anmeldungen s) l).

(** The body of the mount effect. *)
Definition loadData {Err : Type} (service : LivingAppsService.t Err) : Eff Err unit :=
  try_catch_finally
    (pd <- call cDozenten (LivingAppsService.getDozenten service) ;;
     pr <- call cRaeume (LivingAppsService.getRaeume service) ;;
     pt <- call cTeilnehmer (LivingAppsService.getTeilnehmer service) ;;
     pk <- call cKurse (LivingAppsService.getKurse service) ;;
     pa <- call cAnmeldungen (LivingAppsService.getAnmeldungen service) ;;
     v <- await (Promise.all pd pr pt pk pa) ;;
     let '(d, r, t, k, a) := v in
     setDozenten d ;;;
     setRaeume r ;;;
     setTeilnehmer t ;;;
     setKurse k ;;;
     setAnmeldungen a)
    (fun e => console_error "Failed to load:" e)
    (setLoading false).

(** The world after the component has mounted and its loader has run. *)
Definition mounted {Err : Type} (service : LivingAppsService.t Err) : World Err :=
  snd (loadData service (mkWorld State.initial [])).

(** ** The identifier extractor *)

(** Modelled from the spec: [extractRecordId] of [@/services/livingAppsService]
    is not in the sources.  Section 4.1 of the specification gives its contract:
    absent when the input is absent or empty or holds no recognizable
    identifier pattern, the extracted identifier otherwise; which patterns are
    recognizable is left open there, so [recognise] stands for it. *)
Definition extractId (recognise : string -> option string) (ref : option string)
    : option string :=
  match ref with
  | None => None
  | Some s => if String.eqb s "" then None else recognise s
  end.

(** ** The label as the specification words it *)

Definition is_whitespace (c : ascii) : bool :=
  Ascii.eqb c " "%char || Ascii.eqb c "009"%char || Ascii.eqb c "010"%char
  || Ascii.eqb c "011"%char || Ascii.eqb c "012"%char || Ascii.eqb c "013"%char.

Fixpoint skip_whitespace (s : string) : string :=
  match s with
  | EmptyString => EmptyString
  | String c r => if is_whitespace c then skip_whitespace r else s
  end.

Fixpoint until_whitespace (s : string) : string :=
  match s with
  | EmptyString => EmptyString
  | String c r => if is_whitespace c then EmptyString else String c (until_whitespace r)
  end.

(** The first whitespace-delimited token of a string. *)
Definition firstWhitespaceToken (s : string) : string :=
  until_whitespace (skip_whitespace s).

(** The label in the words of the specification: the first
    whitespace-delimited token of the name, the fallback when the name is
    absent. *)
Definition labelAsWorded (d : Dozenten.t) : string :=
  match d.(fields).(Dozenten.name) with
  | None => "N/A"
  | Some n => firstWhitespaceToken n
  end.

(** ** The order of the character codes *)

(** The comparison of two strings by the codes of their characters, as a
    comparator: what the specification calls the lexicographic comparison. *)
Definition charCodeCompare (a b : string) : Z :=
  match String.compare a b with
  | Lt => (-1)%Z
  | Eq => 0%Z
  | Gt => 1%Z
  end.

(** ** A small store to run the component on *)

Module Sample.

(** An extractor in the sense of section 4.1: the identifier is what follows
    the last slash of a record URL. *)
Fixpoint afterLastSlash (acc s : string) : string :=
  match s with
  | EmptyString => acc
  | String c r =>
      if Ascii.eqb c "/"%char then afterLastSlash "" r
      else afterLastSlash (acc ++ String c "") r
  end.

Definition recognise (s : string) : option string :=
  let id := afterLastSlash "" s in
  if String.eqb id "" then None else Some id.

Definition extractRecordId : option string -> option string := extractId recognise.

(** The dates of the store, as instants (milliseconds, UTC). *)
Definition parseISO (s : string) : Date :=
  if String.eqb s "2031-06-30" then Some 1940544000000%Z
  else if String.eqb s "2020-06-30" then Some 1593475200000%Z
  else None.

Definition now : Z := 1793577600000%Z.

Definition clock : Clock := fun _ => now.

Definition anna : Dozenten.t := mkRec "d1" (Dozenten.mk (Some "Anna Schmidt")).
Definition bernd : Dozenten.t := mkRec "d2" (Dozenten.mk (Some "Bernd Maier")).
Definition anonym : Dozenten.t := mkRec "d3" (Dozenten.mk None).
Definition annaIndented : Dozenten.t := mkRec "d1" (Dozenten.mk (Some " Anna Schmidt")).
Definition annaTabbed : Dozenten.t :=
  mkRec "d1" (Dozenten.mk (Some ("Anna" ++ String "009"%char "Schmidt")%string)).

Definition clara : Teilnehmer.t := mkRec "t1" (Teilnehmer.mk (Some "Clara Vogel")).
Definition namenlos : Teilnehmer.t := mkRec "t2" (Teilnehmer.mk None).

Definition kursA : Kurse.t :=
  mkRec "kA" (Kurse.mk (Some "Beweisen mit Rocq") (Some 100%float) (Some "2031-06-30")
                       (Some "https://my.living-apps.de/rest/apps/dozenten/records/d1")).
Definition kursB : Kurse.t :=
  mkRec "kB" (Kurse.mk (Some "Tabellenkalkulation") (Some 50%float) (Some "2020-06-30")
                       (Some "https://my.living-apps.de/rest/apps/dozenten/records/d2")).
Definition kursFrei : Kurse.t := mkRec "kC" (Kurse.mk (Some "") None None None).

Definition refKurs (id : string) : option string :=
  Some ("https://my.living-apps.de/rest/apps/kurse/records/" ++ id)%string.
Definition refTeilnehmer (id : string) : option string :=
  Some ("https://my.living-apps.de/rest/apps/teilnehmer/records/" ++ id)%string.

Definition anmeldung (id kursId teilnehmerId : string) (datum : option string)
    (bezahlt : option bool) : Anmeldungen.t :=
  mkRec id (Anmeldungen.mk (refKurs kursId) (refTeilnehmer teilnehmerId) datum bezahlt).

Definition a1 : Anmeldungen.t := anmeldung "a1" "kA" "t1" (Some "2026-01-10") (Some true).
Definition a2 : Anmeldungen.t := anmeldung "a2" "kA" "t2" (Some "2026-02-01") (Some false).
Definition a3 : Anmeldungen.t := anmeldung "a3" "kB" "t1" (Some "2026-01-20") (Some true).
Definition a4 : Anmeldungen.t := anmeldung "a4" "kC" "t1" (Some "2026-03-05") None.
Definition a5 : Anmeldungen.t := anmeldung "a5" "gone" "t9" None (Some true).
Definition a6 : Anmeldungen.t := anmeldung "a6" "kB" "t2" (Some "2026-01-20") (Some false).

Definition dozenten : list Dozenten.t := [anna; bernd; anonym].
Definition teilnehmer : list Teilnehmer.t := [clara; namenlos].
Definition kurse : list Kurse.t := [kursA; kursB; kursFrei].
Definition anmeldungen : list Anmeldungen.t := [a1; a2; a3].
Definition alleAnmeldungen : list Anmeldungen.t := [a1; a2; a3; a4; a5; a6].

Definition fulfilled {A : Type} (at_ : nat) (v : A) : Promise.t string A :=
  Promise.mk at_ (inr v).
Definition rejected {A : Type} (at_ : nat) (why : string) : Promise.t string A :=
  Promise.mk at_ (inl why).

Definition serviceUp : LivingAppsService.t string :=
  LivingAppsService.mk (fulfilled 4 dozenten) (fulfilled 2 []) (fulfilled 5 teilnehmer)
                       (fulfilled 3 kurse) (fulfilled 6 alleAnmeldungen).

(** The course request fails, the enrollment request fails before it. *)
Definition serviceDown : LivingAppsService.t string :=
  LivingAppsService.mk (fulfilled 4 dozenten) (fulfilled 2 []) (fulfilled 5 teilnehmer)
                       (rejected 3 "503 kurse") (rejected 1 "503 anmeldungen").

(** A course whose end date is no date, and enrollments whose registration
    dates are none. *)
Definition kursOhneDatum : Kurse.t :=
  mkRec "kD" (Kurse.mk (Some "Zeichnen") (Some 80%float) (Some "demnaechst") None).
Definition kursLeeresDatum : Kurse.t :=
  mkRec "kE" (Kurse.mk (Some "Singen") (Some 20%float) (Some "") None).

Definition a7 : Anmeldungen.t := anmeldung "a7" "kA" "t1" (Some "gestern") (Some true).
Definition a1Offen : Anmeldungen.t := anmeldung "a1" "kA" "t2" None (Some false).

Definition toLocaleString (x : number) : string :=
  if (x =? 0)%float then "0" else if (x =? 250)%float then "250" else "...".

Definition ddMMyyyy (t : Z) : string :=
  if (t =? 1940544000000)%Z then "30.06.2031" else "...".

(** Clock readings that advance by a millisecond each, for a second. *)
Definition ticking : Clock := fun n => (now + Z.of_nat (Nat.min n 1000))%Z.

(** A clock that keeps running, a millisecond a reading. *)
Definition laufend : Clock := fun n => (now + Z.of_nat n)%Z.

(** A clock that shows [now] on its fourth and fifth reading only. *)
Definition uhr : Clock :=
  fun n => if (n <? 3)%nat then 0%Z
           else if (n <? 5)%nat then now
           else (now + 86400000 * Z.of_nat n)%Z.

(** A collation in the manner of the host's. The characters of ISO 8601 dates
    have the places the host gives them: the punctuation ([-], [:], [.])
    before the sign [+], the sign before the digits, the digits before the
    letters; every other character is placed by its code. Strings are compared
    by the places of their characters. *)
Definition collationPlace (c : ascii) : N :=
  if Ascii.eqb c "-"%char then 1%N
  else if Ascii.eqb c ":"%char then 2%N
  else if Ascii.eqb c "."%char then 3%N
  else if Ascii.eqb c "+"%char then 4%N
  else (1000 + N_of_ascii c)%N.

Fixpoint collate (a b : string) : Z :=
  match a, b with
  | EmptyString, EmptyString => 0%Z
  | EmptyString, String _ _ => (-1)%Z
  | String _ _, EmptyString => 1%Z
  | String x a', String y b' =>
      match N.compare (collationPlace x) (collationPlace y) with
      | Lt => (-1)%Z
      | Gt => 1%Z
      | Eq => collate a' b'
      end
  end.

(** Two enrollments of one morning, the dates written with and without
    seconds. *)
Definition mitSekunden : Anmeldungen.t :=
  anmeldung "p" "kA" "t1" (Some "2026-01-10T10:00:30+01:00") (Some true).
Definition ohneSekunden : Anmeldungen.t :=
  anmeldung "q" "kA" "t1" (Some "2026-01-10T10:00+01:00") (Some true).

End Sample.

(** ** The derived values of the component *)

Section Dashboard.

(** [extractRecordId] is imported from [@/services/livingAppsService]; the
    computations below are taken for any such function. *)
Variable extractRecordId : option string -> option string.

(** [parseISO] of [date-fns]: the date a string denotes, the Invalid Date for
    a string that denotes none. *)
Variable parseISO : string -> Date.

Variable clock : Clock.

(** [x.toLocaleString('de-DE')]. *)
Variable toLocaleString : number -> string.

(** [format(date, 'dd.MM.yyyy', { locale: de })] of [date-fns] on the date
    with the given time value. *)
Variable ddMMyyyy : Z -> string.

(** [a.localeCompare(b)]: negative, zero or positive as the collation of the
    host puts [a] before, beside or after [b]. *)
Variable localeCompare : string -> string -> Z.

Section Derived.

Variable dozenten : list Dozenten.t.
Variable teilnehmer : list Teilnehmer.t.
Variable kurse : list Kurse.t.
Variable anmeldungen : list Anmeldungen.t.

Definition totalRevenue : number :=
  fold_left (fun sum a =>
      let kursId := extractRecordId a.(fields).(Anmeldungen.kurs) in
      let kurs := find (fun k => strict_eq k.(record_id) kursId) kurse in
      (sum + or_else (chain kurs (fun k => k.(fields).(Kurse.preis))) 0)%float)
    anmeldungen 0%float.

Definition paidCount : Z :=
  JS.length (filter (fun a => toBoolean a.(fields).(Anmeldungen.bezahlt)) anmeldungen).

Definition unpaidCount : Z := (JS.length anmeldungen - paidCount)%Z.

(** The callback of the active-course filter. *)
Definition endsLater (k : Kurse.t) : Reads bool :=
  fun n =>
    let enddatum := k.(fields).(Kurse.enddatum) in
    if negb (toBoolean enddatum) then (false, n)
    else match enddatum with
         | Some s =>
             let (now, n1) := new_Date clock n in
             (isAfter (parseISO s) now, n1)
         | None => (false, n)
         end.

Definition activeKurse : Reads (list Kurse.t) := filter_reading endsLater kurse.

Definition kursPerDozent : list Bar.t :=
  filter (fun d => (0 <? Bar.kurse d)%Z)
    (map (fun d =>
        let count :=
          JS.length (filter (fun k =>
              strict_eq d.(record_id) (extractRecordId k.(fields).(Kurse.dozent))) kurse) in
        Bar.mk
          (or_else (chain d.(fields).(Dozenten.name) (fun s => Some (split_space_head s))) "N/A")
          count)
      dozenten).

(** The comparator of the recent-enrollments sort. *)
Definition byAnmeldedatumDesc (a b : Anmeldungen.t) : Z :=
  let dateA := or_else a.(fields).(Anmeldungen.anmeldedatum) "" in
  let dateB := or_else b.(fields).(Anmeldungen.anmeldedatum) "" in
  localeCompare dateB dateA.

Definition recentAnmeldungen : list Anmeldungen.t :=
  slice0 5 (JS.sort byAnmeldedatumDesc anmeldungen).

Definition getTeilnehmerName (url : option string) : string :=
  let id := extractRecordId url in
  or_else (chain (find (fun t => strict_eq t.(record_id) id) teilnehmer)
                 (fun t => t.(fields).(Teilnehmer.name)))
          "-".

Definition getKursTitel (url : option string) : string :=
  let id := extractRecordId url in
  or_else (chain (find (fun k => strict_eq k.(record_id) id) kurse)
                 (fun k => k.(fields).(Kurse.titel)))
          "-".

Definition paymentData : list Slice.t :=
  [Slice.mk "Bezahlt" paidCount; Slice.mk "Offen" unpaidCount].

End Derived.

(** ** What the markup shows *)

(** [format(date, 'dd.MM.yyyy', { locale: de })]: it throws on the Invalid
    Date. *)
Definition format (date : Date) : RangeError + string :=
  match date with
  | Some t => inr (ddMMyyyy t)
  | None => inl InvalidTimeValue
  end.

Section Markup.

(** The state the component is rendered in, and the number of clock readings
    taken before. *)
Variable s : State.t.
Variable n : nat.

Definition heroAktiveKurse : Shown :=
  if State.loading s then Txt "-"
  else Num (JS.length (fst (activeKurse (State.kurse s) n))).

Definition heroAnmeldungen : Shown :=
  if State.loading s then Txt "-" else Num (JS.length (State.anmeldungen s)).

Definition heroTeilnehmer : Shown :=
  if State.loading s then Txt "-" else Num (JS.length (State.teilnehmer s)).

Definition heroGesamtumsatz : Shown :=
  if State.loading s then Txt "-"
  else Txt (toLocaleString (totalRevenue (State.kurse s) (State.anmeldungen s))).

Definition kpiDozenten : Shown :=
  if State.loading s then Txt "-" else Num (JS.length (State.dozenten s)).

Definition kpiRaeume : Shown :=
  if State.loading s then Txt "-" else Num (JS.length (State.raeume s)).

Definition kpiTeilnehmer : Shown :=
  if State.loading s then Txt "-" else Num (JS.length (State.teilnehmer s)).

Definition kpiKurse : Shown :=
  if State.loading s then Txt "-" else Num (JS.length (State.kurse s)).

Definition kpiAnmeldungen : Shown :=
  if State.loading s then Txt "-" else Num (JS.length (State.anmeldungen s)).

(** The bar chart, or its text. *)
Definition barPanel : Panel (list Bar.t) :=
  if (0 <? JS.length (kursPerDozent (State.dozenten s) (State.kurse s)))%Z
  then Filled (kursPerDozent (State.dozenten s) (State.kurse s))
  else Placeholder "Keine Daten vorhanden".

(** The pie (its slices and the colour of each), or its text. *)
Definition piePanel : Panel (list Slice.t * list (option string)) :=
  if (0 <? JS.length (State.anmeldungen s))%Z
  then Filled (paymentData (State.anmeldungen s),
               map_index (fun _ index => at_index CHART_COLORS index)
                         (paymentData (State.anmeldungen s)))
  else Placeholder "Keine Daten vorhanden".

(** One row of the table. *)
Definition tableRow (a : Anmeldungen.t) : RangeError + Row.t :=
  let name := getTeilnehmerName (State.teilnehmer s) a.(fields).(Anmeldungen.teilnehmer) in
  let titel := getKursTitel (State.kurse s) a.(fields).(Anmeldungen.kurs) in
  let anmeldedatum := a.(fields).(Anmeldungen.anmeldedatum) in
  let datum :=
    if toBoolean anmeldedatum
    then match anmeldedatum with
         | Some d => format (parseISO d)
         | None => inr "-"
         end
    else inr "-" in
  match datum with
  | inl e => inl e
  | inr d =>
      inr (Row.mk name titel d
             (if toBoolean a.(fields).(Anmeldungen.bezahlt)
              then "bg-green-100 text-green-800" else "bg-amber-100 text-amber-800")
             (if toBoolean a.(fields).(Anmeldungen.bezahlt) then "Bezahlt" else "Offen"))
  end.

(** The table, or its text; a row that throws ends the rendering. *)
Definition tablePanel : RangeError + Panel (list Row.t) :=
  if (0 <? JS.length (recentAnmeldungen (State.anmeldungen s)))%Z
  then match map_throwing tableRow (recentAnmeldungen (State.anmeldungen s)) with
       | inl e => inl e
       | inr rows => inr (Filled rows)
       end
  else inr (Placeholder "Noch keine Anmeldungen vorhanden").

End Markup.

(** ** The vocabulary of the specification *)

(** The record a reference resolves to: the first record of the collection
    whose identifier equals the extracted one, if there is one. *)
Fixpoint lookup {F : Type} (id : string) (recs : list (Rec F)) : option (Rec F) :=
  match recs with
  | [] => None
  | r :: rest => if String.eqb r.(record_id) id then Some r else lookup id rest
  end.

Definition resolve {F : Type} (ref : option string) (recs : list (Rec F)) : option (Rec F) :=
  match extractRecordId ref with
  | Some id => lookup id recs
  | None => None
  end.

(** What one enrollment adds to the revenue. *)
Definition revenueOf (kurse : list Kurse.t) (a : Anmeldungen.t) : number :=
  match resolve a.(fields).(Anmeldungen.kurs) kurse with
  | Some k => or_else k.(fields).(Kurse.preis) 0%float
  | None => 0%float
  end.

(** A sum taken in the order of the collection, from [acc] on. *)
Fixpoint sum_from (acc : number) (terms : list number) : number :=
  match terms with
  | [] => acc
  | x :: r => sum_from (acc + x)%float r
  end.

(** The number of enrollments whose paid flag is [true]. *)
Fixpoint paidOnes (anmeldungen : list Anmeldungen.t) : nat :=
  match anmeldungen with
  | [] => 0
  | a :: r =>
      match a.(fields).(Anmeldungen.bezahlt) with
      | Some true => S (paidOnes r)
      | _ => paidOnes r
      end
  end.

(** The instant a course ends at, when its end date denotes one. *)
Definition endsAfter (now : Z) (k : Kurse.t) : bool :=
  match k.(fields).(Kurse.enddatum) with
  | Some s =>
      match parseISO s with
      | Some t => (now <? t)%Z
      | None => false
      end
  | None => false
  end.

Definition option_string_dec (x y : option string) : {x = y} + {x <> y}.
Proof. decide equality. apply string_dec. Defined.

(** The number of courses whose instructor reference extracts to the
    identifier of [d]. *)
Definition coursesOf (kurse : list Kurse.t) (d : Dozenten.t) : nat :=
  count_occ option_string_dec
    (map (fun k => extractRecordId k.(fields).(Kurse.dozent)) kurse)
    (Some d.(record_id)).

Fixpoint has_space (s : string) : bool :=
  match s with
  | EmptyString => false
  | String c r => Ascii.eqb c " "%char || has_space r
  end.

(** [tok] is what stands in [s] before its first space character. *)
Definition BeforeFirstSpace (s tok : string) : Prop :=
  has_space tok = false /\ (s = tok \/ exists rest, s = (tok ++ String " "%char rest)%string).

(** The label of an instructor's bar. *)
Definition label (d : Dozenten.t) : string :=
  match d.(fields).(Dozenten.name) with
  | None => "N/A"
  | Some n => if String.eqb (split_space_head n) "" then "N/A" else split_space_head n
  end.

(** The registration date an enrollment is sorted by. *)
Definition dateKey (a : Anmeldungen.t) : string :=
  match a.(fields).(Anmeldungen.anmeldedatum) with
  | Some s => s
  | None => ""
  end.

Definition hasDate (d : string) (a : Anmeldungen.t) : bool := String.eqb (dateKey a) d.

(** [a] may stand before [b] in a list that is sorted by date, latest first. *)
Definition notEarlier (a b : Anmeldungen.t) : Prop :=
  String.leb (dateKey b) (dateKey a) = true.

(** The comparator of a sort by date, latest first, in the order of the
    character codes. *)
Definition byCharCodesDesc (a b : Anmeldungen.t) : Z :=
  charCodeCompare (dateKey b) (dateKey a).

(** On the registration dates of the collection the collation of the host
    agrees with the order of the character codes (as it does on ISO 8601
    dates that are all of one shape). *)
Definition agreesOnDates (anmeldungen : list Anmeldungen.t) : Prop :=
  forall a b, In a anmeldungen -> In b anmeldungen ->
    (localeCompare (dateKey b) (dateKey a) <=? 0)%Z = String.leb (dateKey b) (dateKey a).

(** A course has an end date to read: a string that is not empty. *)
Definition isDated (k : Kurse.t) : bool :=
  match k.(fields).(Kurse.enddatum) with
  | Some d => negb (String.eqb d "")
  | None => false
  end.

(** The number of courses with an end date to read. *)
Definition dated (kurse : list Kurse.t) : nat := List.length (filter isDated kurse).

(** A course with an end date to read that denotes an instant after [now]. *)
Definition keptAt (now : Z) (k : Kurse.t) : bool := isDated k && endsAfter now k.

(** The reasons of the requests that were rejected, in the order of the
    requests. *)
Definition reason {Err A : Type} (p : Promise.t Err A) : list Err :=
  match Promise.settlement p with
  | inl e => [e]
  | inr _ => []
  end.

Definition rejections {Err : Type} (service : LivingAppsService.t Err) : list Err :=
  reason (LivingAppsService.getDozenten service)
  ++ reason (LivingAppsService.getRaeume service)
  ++ reason (LivingAppsService.getTeilnehmer service)
  ++ reason (LivingAppsService.getKurse service)
  ++ reason (LivingAppsService.getAnmeldungen service).

(** The five requests of one load, each made once. *)
Definition requests {Err : Type} : list (Event Err) :=
  [Request cDozenten; Request cRaeume; Request cTeilnehmer; Request cKurse;
   Request cAnmeldungen].

(** A reference resolves to a record of the collection. *)
Definition resolves {F : Type} (ref : option string) (recs : list (Rec F)) : bool :=
  match resolve ref recs with
  | Some _ => true
  | None => false
  end.

(** The bars of a chart added up. *)
Definition barTotal (bars : list Bar.t) : Z :=
  fold_right (fun b acc => (Bar.kurse b + acc)%Z) 0%Z bars.

(** The registration date of an enrollment is given and is no date. *)
Definition dateGarbled (a : Anmeldungen.t) : Prop :=
  exists d, a.(fields).(Anmeldungen.anmeldedatum) = Some d /\ d <> "" /\ parseISO d = None.

(** ** Resolving references *)

Lemma find_is_resolve {F : Type} (ref : option string) (recs : list (Rec F)) :
  find (fun r => strict_eq r.(record_id) (extractRecordId ref)) recs = resolve ref recs.
Proof.
  unfold resolve. destruct (extractRecordId ref) as [id|]; simpl.
  - induction recs as [|r rest IH]; simpl; [reflexivity|].
    destruct (String.eqb (record_id r) id); [reflexivity | exact IH].
  - induction recs as [|r rest IH]; simpl; [reflexivity | exact IH].
Qed.

Lemma lookup_Some {F : Type} (id : string) (recs : list (Rec F)) (r : Rec F) :
  lookup id recs = Some r -> In r recs /\ r.(record_id) = id.
Proof.
  induction recs as [|x rest IH]; simpl; [discriminate|].
  destruct (String.eqb_spec (record_id x) id) as [E|N]; intros H.
  - injection H as <-. split; [left; reflexivity | exact E].
  - destruct (IH H) as [Hin Hid]. split; [right; exact Hin | exact Hid].
Qed.

Lemma lookup_None {F : Type} (id : string) (recs : list (Rec F)) :
  lookup id recs = None <-> (forall r, In r recs -> r.(record_id) <> id).
Proof.
  induction recs as [|x rest IH]; simpl.
  - split; [intros _ r [] | reflexivity].
  - destruct (String.eqb_spec (record_id x) id) as [E|N].
    + split; [discriminate|]. intros H. exfalso. apply (H x); [left; reflexivity | exact E].
    + rewrite IH. split.
      * intros H r [<-|Hin]; [exact N | exact (H r Hin)].
      * intros H r Hin. apply H. right. exact Hin.
Qed.

(** With identifiers that are unique in the collection, a reference resolves
    to the one record that carries the identifier. *)
Lemma lookup_unique {F : Type} (recs : list (Rec F)) (r : Rec F) :
  NoDup (map record_id recs) -> In r recs -> lookup r.(record_id) recs = Some r.
Proof.
  induction recs as [|x rest IH]; simpl; [intros _ []|].
  intros Hnd [<-|Hin].
  - rewrite String.eqb_refl. reflexivity.
  - inversion Hnd as [|? ? Hx Hrest]; subst.
    destruct (String.eqb_spec (record_id x) (record_id r)) as [E|N].
    + exfalso. apply Hx. rewrite E. apply in_map. exact Hin.
    + apply IH; assumption.
Qed.

(** ** Total revenue *)

Lemma revenue_step (kurse : list Kurse.t) (a : Anmeldungen.t) :
  or_else
    (chain (find (fun k => strict_eq k.(record_id)
                              (extractRecordId a.(fields).(Anmeldungen.kurs))) kurse)
           (fun k => k.(fields).(Kurse.preis)))
    0%float
  = revenueOf kurse a.
Proof.
  unfold revenueOf. rewrite find_is_resolve.
  destruct (resolve _ kurse); reflexivity.
Qed.

Lemma fold_revenue (kurse : list Kurse.t) (anmeldungen : list Anmeldungen.t) (acc : number) :
  fold_left (fun sum a =>
      (sum + or_else
               (chain (find (fun k => strict_eq k.(record_id)
                                         (extractRecordId a.(fields).(Anmeldungen.kurs))) kurse)
                      (fun k => k.(fields).(Kurse.preis)))
               0)%float)
    anmeldungen acc
  = sum_from acc (map (revenueOf kurse) anmeldungen).
Proof.
  revert acc. induction anmeldungen as [|a r IH]; intros acc; simpl; [reflexivity|].
  rewrite IH, revenue_step. reflexivity.
Qed.

Lemma totalRevenue_sum (kurse : list Kurse.t) (anmeldungen : list Anmeldungen.t) :
  totalRevenue kurse anmeldungen = sum_from 0%float (map (revenueOf kurse) anmeldungen).
Proof. unfold totalRevenue. apply fold_revenue. Qed.

Lemma sum_from_snoc (acc : number) (terms : list number) (x : number) :
  sum_from acc (terms ++ [x]) = (sum_from acc terms + x)%float.
Proof.
  revert acc. induction terms as [|y r IH]; intros acc; simpl; [reflexivity | apply IH].
Qed.

Lemma totalRevenue_snoc (kurse : list Kurse.t) (anmeldungen : list Anmeldungen.t)
    (a : Anmeldungen.t) :
  totalRevenue kurse (anmeldungen ++ [a])
  = (totalRevenue kurse anmeldungen + revenueOf kurse a)%float.
Proof. rewrite !totalRevenue_sum, map_app. simpl. apply sum_from_snoc. Qed.

Lemma or_else_falsy_price (p : option number) :
  p = None \/ (exists x, p = Some x /\ is_zero x = true) -> or_else p 0%float = 0%float.
Proof.
  intros [->|[x [-> Hz]]]; [reflexivity|].
  unfold or_else, toBoolean, ToBoolean_number. rewrite Hz. reflexivity.
Qed.

Lemma or_else_price (p : number) :
  is_nan p = false -> (p =? or_else (Some p) 0)%float = true.
Proof.
  intros Hn. unfold or_else, toBoolean, ToBoolean_number. rewrite Hn, orb_false_r.
  destruct (is_zero p) eqn:Hz; simpl.
  - exact Hz.
  - unfold is_nan in Hn. apply negb_false_iff in Hn. exact Hn.
Qed.

(** C1. The total revenue is the sum, in the order of the enrollments, of what
    each enrollment adds: nothing when its course reference resolves to no
    course, the price of the course it resolves to otherwise (the first course
    whose identifier equals the extracted one); it is 0 when there is no
    enrollment. *)
Theorem totalRevenue_is_sum_of_resolved_prices
    (kurse : list Kurse.t) (anmeldungen : list Anmeldungen.t) :
  totalRevenue kurse anmeldungen = sum_from 0%float (map (revenueOf kurse) anmeldungen)
  /\ (forall a, resolve a.(fields).(Anmeldungen.kurs) kurse = None ->
                revenueOf kurse a = 0%float)
  /\ (forall a k p, resolve a.(fields).(Anmeldungen.kurs) kurse = Some k ->
                    k.(fields).(Kurse.preis) = Some p -> toBoolean p = true ->
                    revenueOf kurse a = p)
  /\ (forall a k p, resolve a.(fields).(Anmeldungen.kurs) kurse = Some k ->
                    k.(fields).(Kurse.preis) = Some p -> is_nan p = false ->
                    (p =? revenueOf kurse a)%float = true)
  /\ totalRevenue kurse [] = 0%float.
Proof.
  split; [apply totalRevenue_sum|]. split; [|split; [|split]].
  - intros a H. unfold revenueOf. rewrite H. reflexivity.
  - intros a k p H Hp Ht. unfold revenueOf. rewrite H, Hp. unfold or_else. rewrite Ht.
    reflexivity.
  - intros a k p H Hp Hn. unfold revenueOf. rewrite H, Hp. apply or_else_price. exact Hn.
  - reflexivity.
Qed.

(** C9. An enrollment whose course reference resolves to a course without a
    price, or with the price 0, adds 0 to the revenue, as an unresolved one
    does. *)
Theorem totalRevenue_missing_price_adds_zero
    (kurse : list Kurse.t) (anmeldungen : list Anmeldungen.t) (a : Anmeldungen.t)
    (k : Kurse.t) :
  resolve a.(fields).(Anmeldungen.kurs) kurse = Some k ->
  k.(fields).(Kurse.preis) = None
    \/ (exists p, k.(fields).(Kurse.preis) = Some p /\ is_zero p = true) ->
  revenueOf kurse a = 0%float
  /\ totalRevenue kurse (anmeldungen ++ [a]) = (totalRevenue kurse anmeldungen + 0)%float.
Proof.
  intros Hk Hp.
  assert (E : revenueOf kurse a = 0%float).
  { unfold revenueOf. rewrite Hk. apply or_else_falsy_price. exact Hp. }
  split; [exact E|]. rewrite totalRevenue_snoc, E. reflexivity.
Qed.

(** ** Paid and open enrollments *)

Lemma paid_filter_length (anmeldungen : list Anmeldungen.t) :
  List.length (filter (fun a => toBoolean a.(fields).(Anmeldungen.bezahlt)) anmeldungen)
  = paidOnes anmeldungen.
Proof.
  induction anmeldungen as [|a r IH]; simpl; [reflexivity|].
  destruct (Anmeldungen.bezahlt (fields a)) as [[|]|]; simpl; rewrite IH; reflexivity.
Qed.

Lemma paidOnes_le (anmeldungen : list Anmeldungen.t) :
  paidOnes anmeldungen <= List.length anmeldungen.
Proof.
  induction anmeldungen as [|a r IH]; simpl; [lia|].
  destruct (Anmeldungen.bezahlt (fields a)) as [[|]|]; lia.
Qed.

(** C2. [paidCount] counts the enrollments whose paid flag is true,
    [unpaidCount] is the number of enrollments minus [paidCount], and the two
    add up to the number of enrollments; both are 0 for no enrollment. *)
Theorem paid_and_unpaid_partition (anmeldungen : list Anmeldungen.t) :
  paidCount anmeldungen = Z.of_nat (paidOnes anmeldungen)
  /\ unpaidCount anmeldungen = (JS.length anmeldungen - paidCount anmeldungen)%Z
  /\ (paidCount anmeldungen + unpaidCount anmeldungen)%Z = JS.length anmeldungen
  /\ (0 <= unpaidCount anmeldungen)%Z
  /\ paidCount [] = 0%Z /\ unpaidCount [] = 0%Z.
Proof.
  assert (P : paidCount anmeldungen = Z.of_nat (paidOnes anmeldungen)).
  { unfold paidCount, JS.length. rewrite paid_filter_length. reflexivity. }
  pose proof (paidOnes_le anmeldungen) as Hle.
  unfold unpaidCount. rewrite P. unfold JS.length.
  repeat split; try reflexivity; lia.
Qed.

(** ** Label lookups *)

Lemma getTeilnehmerName_resolve (teilnehmer : list Teilnehmer.t) (url : option string) :
  getTeilnehmerName teilnehmer url
  = match resolve url teilnehmer with
    | Some t => or_else t.(fields).(Teilnehmer.name) "-"
    | None => "-"
    end.
Proof.
  unfold getTeilnehmerName. rewrite find_is_resolve.
  destruct (resolve url teilnehmer); reflexivity.
Qed.

Lemma getKursTitel_resolve (kurse : list Kurse.t) (url : option string) :
  getKursTitel kurse url
  = match resolve url kurse with
    | Some k => or_else k.(fields).(Kurse.titel) "-"
    | None => "-"
    end.
Proof.
  unfold getKursTitel. rewrite find_is_resolve.
  destruct (resolve url kurse); reflexivity.
Qed.

Lemma or_else_falsy_string (x : option string) (d : string) :
  x = None \/ x = Some "" -> or_else x d = d.
Proof. intros [->| ->]; reflexivity. Qed.

Lemma or_else_truthy_string (s d : string) : s <> "" -> or_else (Some s) d = s.
Proof.
  intros H. unfold or_else, toBoolean, ToBoolean_string.
  destruct (String.eqb_spec s ""); [contradiction | reflexivity].
Qed.

(** C7. Both lookups resolve the reference through [extractRecordId] and
    identifier equality; for a reference that resolves to no record they
    return the placeholder ["-"], for one that resolves to a record with a
    non-empty name or title they return it. *)
Theorem lookups_fall_back_when_unresolved
    (teilnehmer : list Teilnehmer.t) (kurse : list Kurse.t) (url : option string) :
  (resolve url teilnehmer = None -> getTeilnehmerName teilnehmer url = "-")
  /\ (resolve url kurse = None -> getKursTitel kurse url = "-")
  /\ (forall t n, resolve url teilnehmer = Some t ->
                  t.(fields).(Teilnehmer.name) = Some n -> n <> "" ->
                  getTeilnehmerName teilnehmer url = n)
  /\ (forall k n, resolve url kurse = Some k ->
                  k.(fields).(Kurse.titel) = Some n -> n <> "" ->
                  getKursTitel kurse url = n).
Proof.
  rewrite getTeilnehmerName_resolve, getKursTitel_resolve.
  split; [|split; [|split]].
  - intros ->. reflexivity.
  - intros ->. reflexivity.
  - intros t n -> -> Hn. apply or_else_truthy_string. exact Hn.
  - intros k n -> -> Hn. apply or_else_truthy_string. exact Hn.
Qed.

(** C10. The lookups also return ["-"] for a reference that resolves to a
    record whose name or title is absent or the empty string. *)
Theorem lookups_fall_back_when_label_missing
    (teilnehmer : list Teilnehmer.t) (kurse : list Kurse.t) (url : option string) :
  (forall t, resolve url teilnehmer = Some t ->
             t.(fields).(Teilnehmer.name) = None \/ t.(fields).(Teilnehmer.name) = Some "" ->
             getTeilnehmerName teilnehmer url = "-")
  /\ (forall k, resolve url kurse = Some k ->
                k.(fields).(Kurse.titel) = None \/ k.(fields).(Kurse.titel) = Some "" ->
                getKursTitel kurse url = "-").
Proof.
  rewrite getTeilnehmerName_resolve, getKursTitel_resolve. split.
  - intros t -> H. apply or_else_falsy_string. exact H.
  - intros k -> H. apply or_else_falsy_string. exact H.
Qed.

(** ** Active courses *)

Lemma filter_reading_In {A : Type} (p : A -> Reads bool) (arr : list A) (n : nat) (x : A) :
  In x (fst (filter_reading p arr n)) -> In x arr /\ exists m, fst (p x m) = true.
Proof.
  revert n. induction arr as [|y r IH]; intros n; simpl; [intros []|].
  destruct (p y n) as [keep n1] eqn:Ep.
  specialize (IH n1). destruct (filter_reading p r n1) as [rest n2]. simpl in *.
  destruct keep; simpl.
  - intros [<-|Hin].
    + split; [left; reflexivity|]. exists n. rewrite Ep. reflexivity.
    + destruct (IH Hin) as [H1 H2]. split; [right; exact H1 | exact H2].
  - intros Hin. destruct (IH Hin) as [H1 H2]. split; [right; exact H1 | exact H2].
Qed.

Lemma endsLater_undated (k : Kurse.t) (n : nat) :
  k.(fields).(Kurse.enddatum) = None -> endsLater k n = (false, n).
Proof. intros H. unfold endsLater. rewrite H. reflexivity. Qed.

(** The callback reads the clock once for a course with an end date to read,
    and not at all for another course. *)
Lemma endsLater_step (k : Kurse.t) (n : nat) :
  endsLater k n = (keptAt (clock n) k, if isDated k then S n else n).
Proof.
  unfold endsLater, keptAt, isDated, endsAfter.
  destruct (Kurse.enddatum (fields k)) as [d|]; [|reflexivity].
  cbv [toBoolean ToBoolean_option ToBoolean_string].
  destruct (String.eqb d ""); simpl; [reflexivity|].
  unfold isAfter. destruct (parseISO d); reflexivity.
Qed.

Lemma activeKurse_cons (k : Kurse.t) (r : list Kurse.t) (n : nat) :
  activeKurse (k :: r) n
  = (if keptAt (clock n) k
     then k :: fst (activeKurse r (if isDated k then S n else n))
     else fst (activeKurse r (if isDated k then S n else n)),
     snd (activeKurse r (if isDated k then S n else n))).
Proof.
  unfold activeKurse. simpl. rewrite endsLater_step.
  destruct (filter_reading endsLater r (if isDated k then S n else n)). reflexivity.
Qed.

Lemma dated_cons (k : Kurse.t) (r : list Kurse.t) :
  dated (k :: r) = (if isDated k then 1 else 0) + dated r.
Proof. unfold dated. simpl. destruct (isDated k); reflexivity. Qed.

Lemma activeKurse_readings (kurse : list Kurse.t) (n : nat) :
  snd (activeKurse kurse n) = n + dated kurse.
Proof.
  revert n. induction kurse as [|k r IH]; intros n.
  - unfold activeKurse, dated. simpl. lia.
  - rewrite activeKurse_cons, dated_cons. simpl. rewrite IH. destruct (isDated k); lia.
Qed.

Lemma keptAt_endsAfter (now : Z) (k : Kurse.t) :
  parseISO "" = None -> keptAt now k = endsAfter now k.
Proof.
  intros Hempty. unfold keptAt, isDated, endsAfter.
  destruct (Kurse.enddatum (fields k)) as [d|]; [|reflexivity].
  destruct (String.eqb_spec d "") as [->|_]; simpl; [|reflexivity].
  rewrite Hempty. reflexivity.
Qed.

Lemma activeKurse_at (now : Z) (kurse : list Kurse.t) :
  parseISO "" = None ->
  forall n, (forall m, n <= m < n + dated kurse -> clock m = now) ->
  fst (activeKurse kurse n) = filter (endsAfter now) kurse.
Proof.
  intros Hempty. induction kurse as [|k r IH]; intros n Hclock; [reflexivity|].
  rewrite activeKurse_cons. rewrite dated_cons in Hclock. cbn [fst filter].
  rewrite <- (keptAt_endsAfter now k Hempty).
  destruct (isDated k) eqn:Hd.
  - rewrite (Hclock n) by lia. rewrite (IH (S n)).
    + reflexivity.
    + intros m Hm. apply Hclock. simpl. lia.
  - assert (Hk : forall t, keptAt t k = false) by (intros t; unfold keptAt; rewrite Hd; reflexivity).
    rewrite !Hk. apply IH. intros m Hm. apply Hclock. simpl. lia.
Qed.

(** C5. The filter reads the clock once for every course with an end date to
    read, from the reading it starts at on. When the clock shows the instant
    [now] on these readings, the filter keeps exactly the courses whose end
    date is present and denotes an instant strictly later than [now]; a course
    without an end date is never kept, whatever the clock shows. *)
Theorem activeKurse_keeps_courses_ending_later (kurse : list Kurse.t) (n : nat) :
  (forall now, parseISO "" = None ->
     (forall m, n <= m < n + dated kurse -> clock m = now) ->
     fst (activeKurse kurse n) = filter (endsAfter now) kurse)
  /\ (forall k, k.(fields).(Kurse.enddatum) = None -> ~ In k (fst (activeKurse kurse n)))
  /\ snd (activeKurse kurse n) = n + dated kurse.
Proof.
  split; [|split].
  - intros now Hempty Hclock. apply activeKurse_at; assumption.
  - intros k Hk Hin. unfold activeKurse in Hin.
    apply filter_reading_In in Hin. destruct Hin as [_ [m Hm]].
    rewrite (endsLater_undated k m Hk) in Hm. discriminate.
  - apply activeKurse_readings.
Qed.

(** ** Courses per instructor *)

Lemma split_space_head_before (s : string) : BeforeFirstSpace s (split_space_head s).
Proof.
  unfold BeforeFirstSpace. induction s as [|c r [IH1 IH2]]; simpl.
  - split; [reflexivity | left; reflexivity].
  - destruct (Ascii.eqb_spec c " "%char) as [->|Hc]; simpl.
    + split; [reflexivity|]. right. exists r. reflexivity.
    + split.
      * destruct (Ascii.eqb_spec c " "%char); [contradiction | exact IH1].
      * destruct IH2 as [E|[rest E]].
        -- left. rewrite <- E. reflexivity.
        -- right. exists rest. rewrite E at 1. reflexivity.
Qed.

Lemma BeforeFirstSpace_unique (s t1 t2 : string) :
  BeforeFirstSpace s t1 -> BeforeFirstSpace s t2 -> t1 = t2.
Proof.
  revert s t2. induction t1 as [|c r IH]; intros s t2 [N1 S1] [N2 S2].
  - destruct t2 as [|c2 r2]; [reflexivity|]. exfalso. simpl in N2.
    apply orb_false_iff in N2. destruct N2 as [Nc _].
    destruct S1 as [->|[rest ->]]; destruct S2 as [E|[rest2 E]]; simpl in E;
      try discriminate; injection E as <- _; simpl in Nc; discriminate.
  - simpl in N1. apply orb_false_iff in N1. destruct N1 as [Nc Nr].
    destruct t2 as [|c2 r2].
    + exfalso.
      destruct S2 as [->|[rest2 ->]]; destruct S1 as [E|[rest E]]; simpl in E;
        try discriminate; injection E as <- _; simpl in Nc; discriminate.
    + simpl in N2. apply orb_false_iff in N2. destruct N2 as [Nc2 Nr2].
      assert (H : c = c2 /\ exists s', BeforeFirstSpace s' r /\ BeforeFirstSpace s' r2).
      { destruct S1 as [->|[rest ->]]; destruct S2 as [E|[rest2 E]]; simpl in E;
          injection E as -> E.
        - split; [reflexivity|]. exists r. subst r2.
          split; (split; [assumption | left; reflexivity]).
        - split; [reflexivity|]. exists r.
          split; (split; [assumption|]); [left; reflexivity | right; exists rest2; exact E].
        - split; [reflexivity|]. exists r2.
          split; (split; [assumption|]); [right; exists rest; symmetry; exact E | left; reflexivity].
        - split; [reflexivity|]. exists (r ++ String " "%char rest)%string.
          split; (split; [assumption|]); right; [exists rest; reflexivity | exists rest2; exact E]. }
      destruct H as [-> [s' [B1 B2]]]. f_equal. exact (IH s' r2 B1 B2).
Qed.

Lemma filter_map_commute {A B : Type} (f : A -> B) (p : B -> bool) (l : list A) :
  filter p (map f l) = map f (filter (fun x => p (f x)) l).
Proof.
  induction l as [|x r IH]; simpl; [reflexivity|].
  destruct (p (f x)); simpl; rewrite IH; reflexivity.
Qed.

Lemma strict_eq_iff (s : string) (x : option string) : strict_eq s x = true <-> x = Some s.
Proof.
  destruct x as [t|]; simpl; [|split; discriminate].
  rewrite String.eqb_eq. split; [intros ->; reflexivity | intros H; injection H as ->; reflexivity].
Qed.

Lemma count_is_coursesOf (kurse : list Kurse.t) (d : Dozenten.t) :
  JS.length (filter (fun k =>
      strict_eq d.(record_id) (extractRecordId k.(fields).(Kurse.dozent))) kurse)
  = Z.of_nat (coursesOf kurse d).
Proof.
  unfold JS.length, coursesOf. f_equal.
  induction kurse as [|k r IH]; simpl; [reflexivity|].
  destruct (option_string_dec (extractRecordId (Kurse.dozent (fields k))) (Some (record_id d)))
    as [E|N].
  - rewrite (proj2 (strict_eq_iff _ _) E). simpl. rewrite IH. reflexivity.
  - destruct (strict_eq (record_id d) (extractRecordId (Kurse.dozent (fields k)))) eqn:Es.
    + apply strict_eq_iff in Es. contradiction.
    + exact IH.
Qed.

Lemma name_label (d : Dozenten.t) :
  or_else (chain d.(fields).(Dozenten.name) (fun s => Some (split_space_head s))) "N/A"
  = label d.
Proof.
  unfold label. destruct (Dozenten.name (fields d)) as [n|]; simpl; [|reflexivity].
  unfold toBoolean, ToBoolean_string. destruct (String.eqb (split_space_head n) ""); reflexivity.
Qed.

Lemma kursPerDozent_bars (dozenten : list Dozenten.t) (kurse : list Kurse.t) :
  kursPerDozent dozenten kurse
  = map (fun d => Bar.mk (label d) (Z.of_nat (coursesOf kurse d)))
        (filter (fun d => (0 <? coursesOf kurse d)%nat) dozenten).
Proof.
  unfold kursPerDozent. rewrite filter_map_commute. simpl.
  induction dozenten as [|d r IH]; simpl; [reflexivity|].
  rewrite count_is_coursesOf.
  replace (0 <? Z.of_nat (coursesOf kurse d))%Z with (0 <? coursesOf kurse d)%nat.
  - destruct (0 <? coursesOf kurse d)%nat; simpl; [|exact IH].
    rewrite count_is_coursesOf, name_label, IH. reflexivity.
  - destruct (Nat.ltb_spec 0 (coursesOf kurse d));
      destruct (Z.ltb_spec 0 (Z.of_nat (coursesOf kurse d))); try reflexivity; lia.
Qed.

(** C4, as the code has it. The chart has one bar for each instructor who
    gives at least one course, in the order of the instructors: it carries the
    number of courses whose instructor reference extracts to the instructor's
    identifier, and as label what stands in the name before its first space
    character, or ["N/A"] when the name is absent or nothing stands before
    its first space. No bar carries the count 0, and without courses there is
    no bar. *)
Theorem kursPerDozent_counts_and_labels (dozenten : list Dozenten.t) (kurse : list Kurse.t) :
  kursPerDozent dozenten kurse
  = map (fun d => Bar.mk (label d) (Z.of_nat (coursesOf kurse d)))
        (filter (fun d => (0 <? coursesOf kurse d)%nat) dozenten)
  /\ (forall d, d.(fields).(Dozenten.name) = None -> label d = "N/A")
  /\ (forall d n, d.(fields).(Dozenten.name) = Some n ->
        exists tok, BeforeFirstSpace n tok
                    /\ (forall tok', BeforeFirstSpace n tok' -> tok' = tok)
                    /\ label d = if String.eqb tok "" then "N/A" else tok)
  /\ Forall (fun b => (0 < Bar.kurse b)%Z) (kursPerDozent dozenten kurse)
  /\ kursPerDozent dozenten [] = [].
Proof.
  split; [apply kursPerDozent_bars|]. split; [|split; [|split]].
  - intros d H. unfold label. rewrite H. reflexivity.
  - intros d n H. exists (split_space_head n). split; [apply split_space_head_before|].
    split.
    + intros tok' H'. exact (BeforeFirstSpace_unique n tok' _ H' (split_space_head_before n)).
    + unfold label. rewrite H. reflexivity.
  - rewrite kursPerDozent_bars. apply Forall_forall. intros b Hb.
    apply in_map_iff in Hb. destruct Hb as [d [<- Hd]]. apply filter_In in Hd.
    destruct Hd as [_ Hd]. apply Nat.ltb_lt in Hd. simpl. lia.
  - rewrite kursPerDozent_bars. induction dozenten as [|d r IH]; simpl; [reflexivity | exact IH].
Qed.

(** ** The stable sort *)

Section SortFacts.

Context {A : Type} (cmp : A -> A -> Z).

Lemma sort_insert_perm (x : A) (l : list A) : Permutation (x :: l) (sort_insert cmp x l).
Proof.
  induction l as [|y r IH]; simpl; [apply Permutation_refl|].
  destruct (cmp x y <=? 0)%Z; [apply Permutation_refl|].
  eapply Permutation_trans; [apply perm_swap|]. apply perm_skip. exact IH.
Qed.

Lemma sort_perm (l : list A) : Permutation l (JS.sort cmp l).
Proof.
  induction l as [|x r IH]; simpl; [apply perm_nil|].
  eapply Permutation_trans; [apply perm_skip; exact IH | apply sort_insert_perm].
Qed.

(** Where the comparator sees no difference between the elements a filter
    keeps, sorting leaves them in the order they had. *)
Lemma sort_insert_filter (p : A -> bool) (x : A) (l : list A) :
  (p x = true -> forall y, In y l -> p y = true -> (cmp x y <= 0)%Z) ->
  filter p (sort_insert cmp x l) = filter p (x :: l).
Proof.
  induction l as [|y r IH]; intros H; simpl; [reflexivity|].
  destruct (Z.leb_spec (cmp x y) 0) as [Hle|Hgt]; simpl; [reflexivity|].
  rewrite IH.
  - simpl. destruct (p x) eqn:Px; [|reflexivity].
    destruct (p y) eqn:Py; [|reflexivity].
    specialize (H eq_refl y (or_introl eq_refl) Py). lia.
  - intros Px z Hz Pz. apply H; [exact Px | right; exact Hz | exact Pz].
Qed.

Lemma sort_filter (p : A -> bool) (l : list A) :
  (forall x y, p x = true -> p y = true -> (cmp x y <= 0)%Z) ->
  filter p (JS.sort cmp l) = filter p l.
Proof.
  intros H. induction l as [|x r IH]; simpl; [reflexivity|].
  rewrite sort_insert_filter.
  - simpl. rewrite IH. reflexivity.
  - intros Px y _ Py. apply H; assumption.
Qed.

Hypothesis cmp_total : forall x y, (0 < cmp x y)%Z -> (cmp y x <= 0)%Z.
Hypothesis cmp_trans : forall x y z, (cmp x y <= 0)%Z -> (cmp y z <= 0)%Z -> (cmp x z <= 0)%Z.

Lemma sort_insert_sorted (x : A) (l : list A) :
  StronglySorted (fun a b => (cmp a b <= 0)%Z) l ->
  StronglySorted (fun a b => (cmp a b <= 0)%Z) (sort_insert cmp x l).
Proof.
  induction l as [|y r IH]; intros Hs; simpl.
  - constructor; constructor.
  - inversion Hs as [|? ? Hr Hy]; subst.
    destruct (Z.leb_spec (cmp x y) 0) as [Hle|Hgt].
    + constructor; [exact Hs|]. constructor; [exact Hle|].
      eapply Forall_impl; [|exact Hy]. intros z Hz. simpl in Hz.
      exact (cmp_trans x y z Hle Hz).
    + constructor; [exact (IH Hr)|].
      eapply Permutation_Forall; [apply sort_insert_perm|].
      constructor; [exact (cmp_total x y Hgt) | exact Hy].
Qed.

Lemma sort_sorted (l : list A) :
  StronglySorted (fun a b => (cmp a b <= 0)%Z) (JS.sort cmp l).
Proof.
  induction l as [|x r IH]; simpl; [constructor | apply sort_insert_sorted; exact IH].
Qed.

End SortFacts.

Lemma sort_insert_ext_in {A : Type} (cmp cmp' : A -> A -> Z) (x : A) (l : list A) :
  (forall y, In y l -> (cmp x y <=? 0)%Z = (cmp' x y <=? 0)%Z) ->
  sort_insert cmp x l = sort_insert cmp' x l.
Proof.
  induction l as [|y r IH]; intros H; simpl; [reflexivity|].
  rewrite (H y (or_introl eq_refl)). rewrite IH; [reflexivity|].
  intros z Hz. apply H. right. exact Hz.
Qed.

(** Sorting reads of the comparator only what it says of two elements of the
    array. *)
Lemma sort_ext_in {A : Type} (cmp cmp' : A -> A -> Z) (l : list A) :
  (forall x y, In x l -> In y l -> (cmp x y <=? 0)%Z = (cmp' x y <=? 0)%Z) ->
  JS.sort cmp l = JS.sort cmp' l.
Proof.
  induction l as [|x r IH]; intros H; simpl; [reflexivity|].
  rewrite IH.
  - apply sort_insert_ext_in. intros y Hy. apply H; [left; reflexivity|]. right.
    eapply Permutation_in; [|exact Hy]. apply Permutation_sym. apply sort_perm.
  - intros a b Ha Hb. apply H; right; assumption.
Qed.

(** Sorting leaves a sorted array as it is. *)
Lemma sort_sorted_id {A : Type} (cmp : A -> A -> Z) (l : list A) :
  StronglySorted (fun a b => (cmp a b <= 0)%Z) l -> JS.sort cmp l = l.
Proof.
  induction l as [|x r IH]; intros Hs; simpl; [reflexivity|].
  inversion Hs as [|? ? Hr Hx]; subst. rewrite (IH Hr).
  destruct r as [|y r']; simpl; [reflexivity|].
  inversion Hx as [|? ? Hxy _]; subst.
  destruct (Z.leb_spec (cmp x y) 0); [reflexivity | lia].
Qed.

(** ** The order of strings by character codes *)

Lemma ascii_compare_refl (c : ascii) : Ascii.compare c c = Eq.
Proof. unfold Ascii.compare. apply N.compare_refl. Qed.

Lemma ascii_compare_lt_trans (a b c : ascii) :
  Ascii.compare a b = Lt -> Ascii.compare b c = Lt -> Ascii.compare a c = Lt.
Proof. unfold Ascii.compare. rewrite !N.compare_lt_iff. apply N.lt_trans. Qed.

Lemma string_compare_refl (s : string) : String.compare s s = Eq.
Proof.
  induction s as [|c r IH]; simpl; [reflexivity|]. rewrite ascii_compare_refl. exact IH.
Qed.

Lemma string_compare_lt_trans (a b c : string) :
  String.compare a b = Lt -> String.compare b c = Lt -> String.compare a c = Lt.
Proof.
  revert b c. induction a as [|x a IH]; intros [|y b] [|z c]; simpl;
    try discriminate; try reflexivity.
  destruct (Ascii.compare x y) eqn:Exy; try discriminate;
    destruct (Ascii.compare y z) eqn:Eyz; try discriminate; intros Hab Hbc.
  - apply Ascii.compare_eq_iff in Exy, Eyz. subst. rewrite ascii_compare_refl.
    exact (IH b c Hab Hbc).
  - apply Ascii.compare_eq_iff in Exy. subst. rewrite Eyz. reflexivity.
  - apply Ascii.compare_eq_iff in Eyz. subst. rewrite Exy. reflexivity.
  - rewrite (ascii_compare_lt_trans x y z Exy Eyz). reflexivity.
Qed.

Lemma string_leb_trans (a b c : string) :
  String.leb a b = true -> String.leb b c = true -> String.leb a c = true.
Proof.
  unfold String.leb.
  destruct (String.compare a b) eqn:Eab; try discriminate;
    destruct (String.compare b c) eqn:Ebc; try discriminate; intros _ _.
  - apply String.compare_eq_iff in Eab, Ebc. subst. rewrite string_compare_refl. reflexivity.
  - apply String.compare_eq_iff in Eab. subst. rewrite Ebc. reflexivity.
  - apply String.compare_eq_iff in Ebc. subst. rewrite Eab. reflexivity.
  - rewrite (string_compare_lt_trans a b c Eab Ebc). reflexivity.
Qed.

Lemma string_leb_empty (s : string) : String.leb "" s = true.
Proof. destruct s; reflexivity. Qed.

Lemma charCodeCompare_le (a b : string) :
  (charCodeCompare a b <= 0)%Z <-> String.leb a b = true.
Proof.
  unfold charCodeCompare, String.leb. destruct (String.compare a b); split; intros H;
    try reflexivity; try discriminate; lia.
Qed.

Lemma charCodeCompare_total (x y : string) :
  (0 < charCodeCompare x y)%Z -> (charCodeCompare y x <= 0)%Z.
Proof.
  intros H. apply charCodeCompare_le.
  destruct (String.leb_total x y) as [L|L]; [|exact L].
  apply charCodeCompare_le in L. lia.
Qed.

Lemma charCodeCompare_trans (x y z : string) :
  (charCodeCompare x y <= 0)%Z -> (charCodeCompare y z <= 0)%Z ->
  (charCodeCompare x z <= 0)%Z.
Proof. rewrite !charCodeCompare_le. apply string_leb_trans. Qed.

(** ** Recent enrollments *)

Lemma or_else_empty (x : option string) :
  or_else x "" = match x with Some s => s | None => "" end.
Proof.
  destruct x as [s|]; [|reflexivity]. unfold or_else, toBoolean, ToBoolean_string.
  destruct (String.eqb_spec s "") as [->|_]; reflexivity.
Qed.

Lemma byAnmeldedatumDesc_dateKey (a b : Anmeldungen.t) :
  byAnmeldedatumDesc a b = localeCompare (dateKey b) (dateKey a).
Proof. unfold byAnmeldedatumDesc, dateKey. rewrite !or_else_empty. reflexivity. Qed.

Lemma byCharCodesDesc_le (a b : Anmeldungen.t) :
  (byCharCodesDesc a b <= 0)%Z <-> notEarlier a b.
Proof. unfold byCharCodesDesc, notEarlier. apply charCodeCompare_le. Qed.

Lemma byCharCodesDesc_total (a b : Anmeldungen.t) :
  (0 < byCharCodesDesc a b)%Z -> (byCharCodesDesc b a <= 0)%Z.
Proof.
  intros H. apply byCharCodesDesc_le. unfold notEarlier.
  destruct (String.leb_total (dateKey a) (dateKey b)) as [L|L]; [exact L|].
  apply byCharCodesDesc_le in L. lia.
Qed.

Lemma byCharCodesDesc_trans (a b c : Anmeldungen.t) :
  (byCharCodesDesc a b <= 0)%Z -> (byCharCodesDesc b c <= 0)%Z ->
  (byCharCodesDesc a c <= 0)%Z.
Proof.
  rewrite !byCharCodesDesc_le. unfold notEarlier. intros Hab Hbc.
  exact (string_leb_trans _ _ _ Hbc Hab).
Qed.

(** Where the collation agrees with the order of the character codes on the
    dates of the collection, the component sorts as a sort in that order
    does. *)
Lemma sort_by_date_agrees (anmeldungen : list Anmeldungen.t) :
  agreesOnDates anmeldungen ->
  JS.sort byAnmeldedatumDesc anmeldungen = JS.sort byCharCodesDesc anmeldungen.
Proof.
  intros Hagree. apply sort_ext_in. intros a b Ha Hb.
  rewrite byAnmeldedatumDesc_dateKey, (Hagree a b Ha Hb). unfold byCharCodesDesc.
  destruct (String.leb (dateKey b) (dateKey a)) eqn:L; symmetry.
  - apply Z.leb_le. apply charCodeCompare_le. exact L.
  - apply Z.leb_gt. apply Z.nle_gt. intros H. apply charCodeCompare_le in H.
    rewrite L in H. discriminate.
Qed.

Lemma sort_by_date_sorted (anmeldungen : list Anmeldungen.t) :
  StronglySorted notEarlier (JS.sort byCharCodesDesc anmeldungen).
Proof.
  pose proof (sort_sorted byCharCodesDesc byCharCodesDesc_total
                byCharCodesDesc_trans anmeldungen) as H.
  induction H as [|a l Hl IH Ha]; constructor; [exact IH|].
  eapply Forall_impl; [|exact Ha]. intros b Hb. apply byCharCodesDesc_le. exact Hb.
Qed.

Lemma sort_by_date_stable (anmeldungen : list Anmeldungen.t) (d : string) :
  filter (hasDate d) (JS.sort byCharCodesDesc anmeldungen) = filter (hasDate d) anmeldungen.
Proof.
  apply sort_filter. intros a b Ha Hb. apply byCharCodesDesc_le.
  unfold hasDate in Ha, Hb. apply String.eqb_eq in Ha, Hb. unfold notEarlier.
  rewrite Ha, Hb. unfold String.leb. rewrite string_compare_refl. reflexivity.
Qed.

(** A list sorted by date, latest first, is determined by the order in which
    the enrollments of each date follow one another. *)
Lemma sorted_by_date_unique (l1 l2 : list Anmeldungen.t) :
  StronglySorted notEarlier l1 -> StronglySorted notEarlier l2 ->
  (forall d, filter (hasDate d) l1 = filter (hasDate d) l2) ->
  l1 = l2.
Proof.
  assert (Hself : forall a, hasDate (dateKey a) a = true).
  { intros a. unfold hasDate. apply String.eqb_refl. }
  assert (Hhead : forall x r y r', StronglySorted notEarlier (x :: r) ->
            filter (hasDate (dateKey y)) (x :: r) = filter (hasDate (dateKey y)) (y :: r') ->
            String.leb (dateKey y) (dateKey x) = true).
  { intros x r y r' Hs Hf. simpl in Hf. rewrite (Hself y) in Hf.
    assert (Hin : In y (filter (hasDate (dateKey y)) (x :: r))).
    { simpl. rewrite Hf. left. reflexivity. }
    apply filter_In in Hin. destruct Hin as [Hin Hy].
    inversion Hs as [|? ? _ Hall]; subst.
    unfold hasDate in Hy. apply String.eqb_eq in Hy.
    destruct Hin as [->|Hin].
    - unfold String.leb. rewrite string_compare_refl. reflexivity.
    - rewrite Forall_forall in Hall. specialize (Hall y Hin). exact Hall. }
  revert l2. induction l1 as [|x r1 IH]; intros [|y r2] S1 S2 Hf.
  - reflexivity.
  - specialize (Hf (dateKey y)). simpl in Hf. rewrite Hself in Hf. discriminate.
  - specialize (Hf (dateKey x)). simpl in Hf. rewrite Hself in Hf. discriminate.
  - assert (Exy : dateKey x = dateKey y).
    { apply String.leb_antisym.
      - exact (Hhead y r2 x r1 S2 (eq_sym (Hf (dateKey x)))).
      - exact (Hhead x r1 y r2 S1 (Hf (dateKey y))). }
    assert (Hxy : x = y).
    { pose proof (Hf (dateKey x)) as H. simpl in H. rewrite Hself in H.
      rewrite Exy in H at 2. rewrite Hself in H. injection H as H _. exact H. }
    subst y. f_equal.
    inversion S1; inversion S2; subst. apply IH; try assumption.
    intros d. specialize (Hf d). simpl in Hf.
    destruct (hasDate d x); [injection Hf as Hf|]; exact Hf.
Qed.

(** C3, as the code has it. The code compares the dates with [localeCompare],
    the collation of the host. For every collection on whose registration
    dates that collation agrees with the order of the character codes, the
    recent enrollments are the first five of the enrollments sorted by
    registration date, latest first, in the order of the character codes
    (a missing date counting as the empty string, the lowest date there is),
    enrollments of one date staying in the order they had; that sorted list is
    the only one of this kind. For every collection the result has
    min(5, number of enrollments) entries. *)
Theorem recentAnmeldungen_first_five_latest_first (anmeldungen : list Anmeldungen.t) :
  (agreesOnDates anmeldungen ->
   exists sorted,
     recentAnmeldungen anmeldungen = firstn 5 sorted
     /\ Permutation anmeldungen sorted
     /\ StronglySorted notEarlier sorted
     /\ (forall d, filter (hasDate d) sorted = filter (hasDate d) anmeldungen)
     /\ (forall other, StronglySorted notEarlier other ->
           (forall d, filter (hasDate d) other = filter (hasDate d) anmeldungen) ->
           other = sorted)
     /\ (forall a b, a.(fields).(Anmeldungen.anmeldedatum) = None ->
           dateKey a = "" /\ String.leb (dateKey a) (dateKey b) = true))
  /\ List.length (recentAnmeldungen anmeldungen) = Nat.min 5 (List.length anmeldungen).
Proof.
  split.
  - intros Hagree. exists (JS.sort byCharCodesDesc anmeldungen).
    split; [unfold recentAnmeldungen, slice0; rewrite (sort_by_date_agrees _ Hagree);
            reflexivity|].
    split; [apply sort_perm|]. split; [apply sort_by_date_sorted|].
    split; [apply sort_by_date_stable|]. split.
    + intros other Hs Hf. apply sorted_by_date_unique;
        [exact Hs | apply sort_by_date_sorted |].
      intros d. rewrite Hf, sort_by_date_stable. reflexivity.
    + intros a b Ha. unfold dateKey at 1 2. rewrite Ha. split; [reflexivity|].
      apply string_leb_empty.
  - unfold recentAnmeldungen, slice0. rewrite length_firstn.
    rewrite <- (Permutation_length (sort_perm byAnmeldedatumDesc anmeldungen)). reflexivity.
Qed.

(** ** Loading *)

Lemma both_settles {Err A B : Type} (p : Promise.t Err A) (q : Promise.t Err B) :
  match Promise.settlement (Promise.both p q) with
  | inl e => In e (reason p ++ reason q)
  | inr (a, b) => Promise.settlement p = inr a /\ Promise.settlement q = inr b
  end.
Proof.
  unfold Promise.both, reason.
  destruct (Promise.settlement p) as [e1|a], (Promise.settlement q) as [e2|b]; simpl.
  - destruct (Promise.settledAt q <? Promise.settledAt p)%nat; simpl; auto.
  - auto.
  - auto.
  - auto.
Qed.

Lemma reason_fulfilled {Err A : Type} (p : Promise.t Err A) (a : A) :
  Promise.settlement p = inr a -> reason p = [].
Proof. intros H. unfold reason. rewrite H. reflexivity. Qed.

Lemma all_settles {Err : Type} (service : LivingAppsService.t Err) :
  match Promise.settlement
          (Promise.all (LivingAppsService.getDozenten service)
                       (LivingAppsService.getRaeume service)
                       (LivingAppsService.getTeilnehmer service)
                       (LivingAppsService.getKurse service)
                       (LivingAppsService.getAnmeldungen service)) with
  | inl e => In e (rejections service)
  | inr (d, r, t, k, a) =>
      Promise.settlement (LivingAppsService.getDozenten service) = inr d
      /\ Promise.settlement (LivingAppsService.getRaeume service) = inr r
      /\ Promise.settlement (LivingAppsService.getTeilnehmer service) = inr t
      /\ Promise.settlement (LivingAppsService.getKurse service) = inr k
      /\ Promise.settlement (LivingAppsService.getAnmeldungen service) = inr a
  end.
Proof.
  unfold Promise.all, rejections. cbn [Promise.settlement].
  set (p4 := Promise.both (LivingAppsService.getKurse service)
                          (LivingAppsService.getAnmeldungen service)).
  set (p3 := Promise.both (LivingAppsService.getTeilnehmer service) p4).
  set (p2 := Promise.both (LivingAppsService.getRaeume service) p3).
  pose proof (both_settles (LivingAppsService.getKurse service)
                           (LivingAppsService.getAnmeldungen service)) as H4.
  pose proof (both_settles (LivingAppsService.getTeilnehmer service) p4) as H3.
  pose proof (both_settles (LivingAppsService.getRaeume service) p3) as H2.
  pose proof (both_settles (LivingAppsService.getDozenten service) p2) as H1.
  fold p4 in H4. fold p3 in H3. fold p2 in H2.
  assert (R4 : forall e, In e (reason p4) ->
            In e (reason (LivingAppsService.getKurse service)
                  ++ reason (LivingAppsService.getAnmeldungen service))).
  { intros e. unfold reason at 1. destruct (Promise.settlement p4) as [e4|[k a]]; simpl;
      [intros [<-|[]]; exact H4 | intros []]. }
  assert (R3 : forall e, In e (reason p3) ->
            In e (reason (LivingAppsService.getTeilnehmer service)
                  ++ reason (LivingAppsService.getKurse service)
                  ++ reason (LivingAppsService.getAnmeldungen service))).
  { intros e. unfold reason at 1. destruct (Promise.settlement p3) as [e3|[t ka]]; simpl;
      [|intros []]. intros [<-|[]]. apply in_app_or in H3. apply in_or_app.
    destruct H3 as [H3|H3]; [left; exact H3 | right; exact (R4 _ H3)]. }
  assert (R2 : forall e, In e (reason p2) ->
            In e (reason (LivingAppsService.getRaeume service)
                  ++ reason (LivingAppsService.getTeilnehmer service)
                  ++ reason (LivingAppsService.getKurse service)
                  ++ reason (LivingAppsService.getAnmeldungen service))).
  { intros e. unfold reason at 1. destruct (Promise.settlement p2) as [e2|[r tka]]; simpl;
      [|intros []]. intros [<-|[]]. apply in_app_or in H2. apply in_or_app.
    destruct H2 as [H2|H2]; [left; exact H2 | right; exact (R3 _ H2)]. }
  destruct (Promise.settlement
              (Promise.both (LivingAppsService.getDozenten service) p2)) as [e|[d rtka]].
  - apply in_app_or in H1. apply in_or_app.
    destruct H1 as [H1|H1]; [left; exact H1 | right; exact (R2 _ H1)].
  - destruct H1 as [Hd H1]. rewrite H1 in H2. destruct rtka as [r tka].
    destruct H2 as [Hr H2]. rewrite H2 in H3. destruct tka as [t ka].
    destruct H3 as [Ht H3]. rewrite H3 in H4. destruct ka as [k a].
    destruct H4 as [Hk Ha]. auto.
Qed.

(** When every request is fulfilled the state holds the five collections. *)
Lemma loadData_fulfilled {Err : Type} (service : LivingAppsService.t Err) :
  rejections service = [] ->
  exists d r t k a,
    Promise.settlement (LivingAppsService.getDozenten service) = inr d
    /\ Promise.settlement (LivingAppsService.getRaeume service) = inr r
    /\ Promise.settlement (LivingAppsService.getTeilnehmer service) = inr t
    /\ Promise.settlement (LivingAppsService.getKurse service) = inr k
    /\ Promise.settlement (LivingAppsService.getAnmeldungen service) = inr a
    /\ mounted service = mkWorld (State.mk d r t k a false) requests.
Proof.
  intros Hnone. pose proof (all_settles service) as H.
  unfold mounted, loadData, try_catch_finally, bind, call, emit, ret, await.
  cbn -[Promise.all].
  destruct (Promise.settlement (Promise.all _ _ _ _ _)) as [e|[[[[d r] t] k] a]].
  - rewrite Hnone in H. destruct H.
  - exists d, r, t, k, a. destruct H as [Hd [Hr [Ht [Hk Ha]]]].
    repeat (split; [assumption|]). reflexivity.
Qed.

(** When a request is rejected nothing is stored: one message goes to the
    console and the loading flag falls. *)
Lemma loadData_rejected {Err : Type} (service : LivingAppsService.t Err) :
  rejections service <> [] ->
  exists e, In e (rejections service)
    /\ mounted service
       = mkWorld (State.mk [] [] [] [] [] false)
                 (requests ++ [ConsoleError "Failed to load:" e]).
Proof.
  intros Hsome. pose proof (all_settles service) as H.
  unfold mounted, loadData, try_catch_finally, bind, call, emit, ret, await.
  cbn -[Promise.all].
  destruct (Promise.settlement (Promise.all _ _ _ _ _)) as [e|[[[[d r] t] k] a]].
  - exists e. split; [exact H | reflexivity].
  - exfalso. apply Hsome. destruct H as [Hd [Hr [Ht [Hk Ha]]]]. unfold rejections.
    rewrite (reason_fulfilled _ _ Hd), (reason_fulfilled _ _ Hr), (reason_fulfilled _ _ Ht),
      (reason_fulfilled _ _ Hk), (reason_fulfilled _ _ Ha). reflexivity.
Qed.

(** C6. When one of the five requests is rejected, the component has made each
    request once, has written one message with the reason of a rejected
    request to the console, holds five empty collections with the loading flag
    down, and every derived value is the one of empty collections. *)
Theorem failed_load_shows_empty_dashboard {Err : Type}
    (service : LivingAppsService.t Err) (n : nat) :
  rejections service <> [] ->
  state (mounted service) = State.mk [] [] [] [] [] false
  /\ (exists e, In e (rejections service)
        /\ trace (mounted service) = requests ++ [ConsoleError "Failed to load:" e])
  /\ totalRevenue (State.kurse (state (mounted service)))
                  (State.anmeldungen (state (mounted service))) = 0%float
  /\ paidCount (State.anmeldungen (state (mounted service))) = 0%Z
  /\ unpaidCount (State.anmeldungen (state (mounted service))) = 0%Z
  /\ fst (activeKurse (State.kurse (state (mounted service))) n) = []
  /\ kursPerDozent (State.dozenten (state (mounted service)))
                   (State.kurse (state (mounted service))) = []
  /\ recentAnmeldungen (State.anmeldungen (state (mounted service))) = []
  /\ (forall url, getTeilnehmerName (State.teilnehmer (state (mounted service))) url = "-"
                  /\ getKursTitel (State.kurse (state (mounted service))) url = "-").
Proof.
  intros Hsome. destruct (loadData_rejected service Hsome) as [e [He Hw]].
  rewrite Hw. cbn [state trace State.kurse State.anmeldungen State.dozenten State.teilnehmer].
  split; [reflexivity|]. split; [exists e; split; [exact He | reflexivity]|].
  repeat split; reflexivity.
Qed.

(** ** Further properties of the loader *)

(** X1. When the five requests are fulfilled, the state holds exactly the five
    collections they were fulfilled with, the loading flag is down, each
    request was made once and nothing went to the console. *)
Theorem loadData_stores_what_was_fetched {Err : Type} (service : LivingAppsService.t Err)
    (d : list Dozenten.t) (r : list Raeume.t) (t : list Teilnehmer.t)
    (k : list Kurse.t) (a : list Anmeldungen.t) :
  Promise.settlement (LivingAppsService.getDozenten service) = inr d ->
  Promise.settlement (LivingAppsService.getRaeume service) = inr r ->
  Promise.settlement (LivingAppsService.getTeilnehmer service) = inr t ->
  Promise.settlement (LivingAppsService.getKurse service) = inr k ->
  Promise.settlement (LivingAppsService.getAnmeldungen service) = inr a ->
  mounted service = mkWorld (State.mk d r t k a false) requests.
Proof.
  intros Hd Hr Ht Hk Ha.
  destruct (loadData_fulfilled service)
    as [d' [r' [t' [k' [a' [Hd' [Hr' [Ht' [Hk' [Ha' Hm]]]]]]]]]].
  - unfold rejections.
    rewrite (reason_fulfilled _ _ Hd), (reason_fulfilled _ _ Hr), (reason_fulfilled _ _ Ht),
      (reason_fulfilled _ _ Hk), (reason_fulfilled _ _ Ha). reflexivity.
  - rewrite Hd in Hd'. rewrite Hr in Hr'. rewrite Ht in Ht'. rewrite Hk in Hk'.
    rewrite Ha in Ha'.
    injection Hd' as <-. injection Hr' as <-. injection Ht' as <-. injection Hk' as <-.
    injection Ha' as <-. exact Hm.
Qed.

(** X2. Whatever the five requests settle to, the loader leaves the loading
    flag down and has made each request once, before anything else; the state
    then holds all five fetched collections and the console nothing, or the
    state holds no collection and the console one message: never a part of
    the collections. *)
Theorem loadData_all_or_nothing {Err : Type} (service : LivingAppsService.t Err) :
  State.loading (state (mounted service)) = false
  /\ firstn 5 (trace (mounted service)) = requests
  /\ ((exists d r t k a,
         Promise.settlement (LivingAppsService.getDozenten service) = inr d
         /\ Promise.settlement (LivingAppsService.getRaeume service) = inr r
         /\ Promise.settlement (LivingAppsService.getTeilnehmer service) = inr t
         /\ Promise.settlement (LivingAppsService.getKurse service) = inr k
         /\ Promise.settlement (LivingAppsService.getAnmeldungen service) = inr a
         /\ state (mounted service) = State.mk d r t k a false
         /\ trace (mounted service) = requests)
      \/ (exists e,
            In e (rejections service)
            /\ state (mounted service) = State.mk [] [] [] [] [] false
            /\ trace (mounted service) = requests ++ [ConsoleError "Failed to load:" e])).
Proof.
  destruct (rejections service) as [|e0 rest] eqn:Hrej.
  - destruct (loadData_fulfilled service Hrej)
      as [d [r [t [k [a [Hd [Hr [Ht [Hk [Ha Hm]]]]]]]]]].
    rewrite Hm. cbn [state trace State.loading].
    split; [reflexivity|]. split; [reflexivity|]. left.
    exists d, r, t, k, a. repeat (split; [assumption|]). split; reflexivity.
  - destruct (loadData_rejected service) as [e [He Hm]].
    + rewrite Hrej. discriminate.
    + rewrite Hm. cbn [state trace State.loading].
      split; [reflexivity|]. split; [reflexivity|]. right.
      exists e. rewrite <- Hrej. split; [exact He|]. split; reflexivity.
Qed.

(** ** Further properties of the revenue *)

Lemma revenueOf_by_reference (kurse : list Kurse.t) (a b : Anmeldungen.t) :
  a.(fields).(Anmeldungen.kurs) = b.(fields).(Anmeldungen.kurs) ->
  revenueOf kurse a = revenueOf kurse b.
Proof. intros H. unfold revenueOf. rewrite H. reflexivity. Qed.

Lemma map_revenueOf_by_reference (kurse : list Kurse.t) (l1 l2 : list Anmeldungen.t) :
  map (fun a => a.(fields).(Anmeldungen.kurs)) l1
  = map (fun a => a.(fields).(Anmeldungen.kurs)) l2 ->
  map (revenueOf kurse) l1 = map (revenueOf kurse) l2.
Proof.
  revert l2. induction l1 as [|a r IH]; intros [|b r2]; simpl; try discriminate;
    [reflexivity|].
  intros H. injection H as Hab Hr.
  rewrite (revenueOf_by_reference kurse a b Hab), (IH r2 Hr). reflexivity.
Qed.

(** X3. The total revenue reads nothing of an enrollment but its course
    reference: two enrollment collections with the same course references, in
    the same order, yield the same revenue, whatever their paid flags,
    participants and dates are. *)
Theorem totalRevenue_reads_course_references_only
    (kurse : list Kurse.t) (l1 l2 : list Anmeldungen.t) :
  map (fun a => a.(fields).(Anmeldungen.kurs)) l1
  = map (fun a => a.(fields).(Anmeldungen.kurs)) l2 ->
  totalRevenue kurse l1 = totalRevenue kurse l2.
Proof.
  intros H. rewrite !totalRevenue_sum, (map_revenueOf_by_reference kurse l1 l2 H).
  reflexivity.
Qed.

Lemma lookup_permutation {F : Type} (id : string) (l l' : list (Rec F)) :
  NoDup (map record_id l) -> Permutation l l' -> lookup id l = lookup id l'.
Proof.
  intros Hnd Hp. destruct (lookup id l) as [r|] eqn:E.
  - apply lookup_Some in E. destruct E as [Hin <-]. symmetry. apply lookup_unique.
    + eapply Permutation_NoDup; [|exact Hnd]. apply Permutation_map. exact Hp.
    + eapply Permutation_in; [exact Hp | exact Hin].
  - symmetry. apply lookup_None. intros r Hin.
    apply (proj1 (lookup_None id l) E). eapply Permutation_in; [|exact Hin].
    apply Permutation_sym. exact Hp.
Qed.

(** X4. When the identifiers of the courses are unique, the order of the course
    collection is immaterial to the revenue. *)
Theorem totalRevenue_any_order_of_courses
    (kurse kurse' : list Kurse.t) (anmeldungen : list Anmeldungen.t) :
  NoDup (map record_id kurse) -> Permutation kurse kurse' ->
  totalRevenue kurse anmeldungen = totalRevenue kurse' anmeldungen.
Proof.
  intros Hnd Hp. rewrite !totalRevenue_sum. f_equal. apply map_ext. intros a.
  unfold revenueOf, resolve.
  destruct (extractRecordId (Anmeldungen.kurs (fields a))) as [id|]; [|reflexivity].
  rewrite (lookup_permutation id kurse kurse' Hnd Hp). reflexivity.
Qed.

(** ** Further properties of the lookups *)

(** X5. In a collection with unique identifiers, a reference that extracts to
    the identifier of a record with a non-empty name (or title) is shown as
    that name (or title), wherever the record stands in the collection. *)
Theorem lookups_find_the_record
    (teilnehmer : list Teilnehmer.t) (kurse : list Kurse.t) (url : option string) :
  (forall t nm, NoDup (map record_id teilnehmer) -> In t teilnehmer ->
      extractRecordId url = Some t.(record_id) ->
      t.(fields).(Teilnehmer.name) = Some nm -> nm <> "" ->
      getTeilnehmerName teilnehmer url = nm)
  /\ (forall k ti, NoDup (map record_id kurse) -> In k kurse ->
      extractRecordId url = Some k.(record_id) ->
      k.(fields).(Kurse.titel) = Some ti -> ti <> "" ->
      getKursTitel kurse url = ti).
Proof.
  split.
  - intros t nm Hnd Hin Hid Hname Hne.
    rewrite getTeilnehmerName_resolve. unfold resolve. rewrite Hid.
    rewrite (lookup_unique teilnehmer t Hnd Hin), Hname.
    apply or_else_truthy_string. exact Hne.
  - intros k ti Hnd Hin Hid Htitel Hne.
    rewrite getKursTitel_resolve. unfold resolve. rewrite Hid.
    rewrite (lookup_unique kurse k Hnd Hin), Htitel.
    apply or_else_truthy_string. exact Hne.
Qed.

(** ** Further properties of the active courses *)

Lemma endsLater_kept (k : Kurse.t) (m : nat) :
  fst (endsLater k m) = true ->
  exists d t, k.(fields).(Kurse.enddatum) = Some d /\ d <> ""
              /\ parseISO d = Some t /\ (clock m < t)%Z.
Proof.
  unfold endsLater. destruct (Kurse.enddatum (fields k)) as [d|]; [|discriminate].
  cbv [toBoolean ToBoolean_option ToBoolean_string].
  destruct (String.eqb_spec d "") as [->|Hd]; simpl; [discriminate|].
  unfold isAfter. destruct (parseISO d) as [t|] eqn:Hp; [|discriminate].
  intros H. apply Z.ltb_lt in H. exists d, t. repeat split; assumption.
Qed.

(** X6. A course whose end date is the empty string, or a string that
    [parseISO] takes for no date, is never among the active courses, whatever
    the clock shows: the filter drops it without failing. *)
Theorem activeKurse_drops_what_is_no_date (kurse : list Kurse.t) (n : nat) (k : Kurse.t) :
  k.(fields).(Kurse.enddatum) = Some ""
    \/ (exists d, k.(fields).(Kurse.enddatum) = Some d /\ parseISO d = None) ->
  ~ In k (fst (activeKurse kurse n)).
Proof.
  intros Hk Hin. unfold activeKurse in Hin. apply filter_reading_In in Hin.
  destruct Hin as [_ [m Hm]]. apply endsLater_kept in Hm.
  destruct Hm as [d [t [Hd [Hne [Hp _]]]]].
  destruct Hk as [Hk|[d' [Hk Hp']]]; rewrite Hd in Hk; injection Hk as Hk; subst.
  - contradiction.
  - rewrite Hp in Hp'. discriminate.
Qed.

Lemma filter_reading_app {A : Type} (p : A -> Reads bool) (l1 l2 : list A) (n : nat) :
  filter_reading p (l1 ++ l2) n
  = (fst (filter_reading p l1 n)
       ++ fst (filter_reading p l2 (snd (filter_reading p l1 n))),
     snd (filter_reading p l2 (snd (filter_reading p l1 n)))).
Proof.
  revert n. induction l1 as [|x r IH]; intros n; simpl.
  - destruct (filter_reading p l2 n). reflexivity.
  - destruct (p x n) as [keep n1]. rewrite IH.
    destruct (filter_reading p r n1) as [r1 n2]. simpl.
    destruct (filter_reading p l2 n2) as [r2 n3]. simpl.
    destruct keep; reflexivity.
Qed.

Lemma dated_app (l1 l2 : list Kurse.t) : dated (l1 ++ l2) = dated l1 + dated l2.
Proof. unfold dated. rewrite filter_app, length_app. reflexivity. Qed.

Lemma endsAfter_earlier (lo now : Z) (k : Kurse.t) :
  (lo <= now)%Z -> endsAfter now k = true -> endsAfter lo k = true.
Proof.
  unfold endsAfter. destruct (Kurse.enddatum (fields k)) as [d|]; [|discriminate].
  destruct (parseISO d) as [t|]; [|discriminate].
  intros Hle H. apply Z.ltb_lt in H. apply Z.ltb_lt. lia.
Qed.

Lemma activeKurse_In (kurse : list Kurse.t) (n : nat) (k : Kurse.t) :
  In k (fst (activeKurse kurse n)) ->
  In k kurse /\ exists m, n <= m < n + dated kurse /\ keptAt (clock m) k = true.
Proof.
  revert n. induction kurse as [|x r IH]; intros n; [intros []|].
  rewrite activeKurse_cons, dated_cons. cbn [fst].
  destruct (isDated x) eqn:Hd.
  - destruct (keptAt (clock n) x) eqn:Hk.
    + intros [<-|Hin].
      * split; [left; reflexivity|]. exists n. split; [lia | exact Hk].
      * destruct (IH (S n) Hin) as [H1 [m [Hm H2]]].
        split; [right; exact H1|]. exists m. split; [lia | exact H2].
    + intros Hin. destruct (IH (S n) Hin) as [H1 [m [Hm H2]]].
      split; [right; exact H1|]. exists m. split; [lia | exact H2].
  - assert (Hk : keptAt (clock n) x = false) by (unfold keptAt; rewrite Hd; reflexivity).
    rewrite Hk. intros Hin. destruct (IH n Hin) as [H1 [m [Hm H2]]].
    split; [right; exact H1|]. exists m. split; [simpl; lia | exact H2].
Qed.

Lemma activeKurse_keeps (kurse : list Kurse.t) (n : nat) (k : Kurse.t) :
  In k kurse -> isDated k = true ->
  (forall m, n <= m < n + dated kurse -> endsAfter (clock m) k = true) ->
  In k (fst (activeKurse kurse n)).
Proof.
  intros Hin Hd. revert n. induction kurse as [|x r IH]; intros n Hkept; [destruct Hin|].
  rewrite activeKurse_cons. rewrite dated_cons in Hkept. cbn [fst].
  destruct Hin as [->|Hin].
  - unfold keptAt. rewrite Hd in *. rewrite (Hkept n) by lia. left. reflexivity.
  - assert (Hrest : In k (fst (activeKurse r (if isDated x then S n else n)))).
    { apply (IH Hin). intros m Hm. apply Hkept. destruct (isDated x); simpl; lia. }
    destruct (keptAt (clock n) x); [right; exact Hrest | exact Hrest].
Qed.

(** X7. The filter reads the clock anew for every course with an end date to
    read, and for no other: it takes as many readings as there are such
    courses, and judges each of them by the reading that the courses before it
    have left to it. When the readings it takes lie between [lo] and [hi],
    every course it keeps is a course of the collection that ends after [lo],
    and it keeps every course (with a non-empty end date) that ends after
    [hi]. *)
Theorem activeKurse_between_clock_readings (kurse : list Kurse.t) (n : nat) :
  snd (activeKurse kurse n) = n + dated kurse
  /\ (forall l1 k l2, kurse = l1 ++ k :: l2 ->
        fst (activeKurse kurse n)
        = fst (activeKurse l1 n)
            ++ (if keptAt (clock (n + dated l1)) k then [k] else [])
            ++ fst (activeKurse l2 (n + dated (l1 ++ [k]))))
  /\ (forall lo hi, (forall m, n <= m < n + dated kurse -> (lo <= clock m <= hi)%Z) ->
        (forall k, In k (fst (activeKurse kurse n)) -> In k kurse /\ endsAfter lo k = true)
        /\ (forall k, In k kurse -> k.(fields).(Kurse.enddatum) <> Some "" ->
              endsAfter hi k = true -> In k (fst (activeKurse kurse n)))).
Proof.
  split; [apply activeKurse_readings|]. split.
  - intros l1 k l2 ->. unfold activeKurse at 1. rewrite filter_reading_app. cbn [fst].
    fold (activeKurse l1 n). fold (activeKurse (k :: l2) (snd (activeKurse l1 n))).
    rewrite activeKurse_readings, activeKurse_cons. cbn [fst].
    assert (E : (if isDated k then S (n + dated l1) else n + dated l1)
                = n + dated (l1 ++ [k])).
    { rewrite dated_app, dated_cons. change (dated (@nil Kurse.t)) with 0.
      destruct (isDated k); lia. }
    rewrite E. destruct (keptAt (clock (n + dated l1)) k); reflexivity.
  - intros lo hi Hclock. split.
    + intros k Hin. apply activeKurse_In in Hin. destruct Hin as [Hin [m [Hm Hk]]].
      split; [exact Hin|]. unfold keptAt in Hk. apply andb_true_iff in Hk.
      destruct Hk as [_ Hk]. apply (endsAfter_earlier lo (clock m)); [|exact Hk].
      specialize (Hclock m Hm). lia.
    + intros k Hin Hne Hafter. apply activeKurse_keeps; [exact Hin| |].
      * unfold isDated. unfold endsAfter in Hafter.
        destruct (Kurse.enddatum (fields k)) as [d|]; [|discriminate].
        destruct (String.eqb_spec d "") as [->|_]; [|reflexivity].
        exfalso. apply Hne. reflexivity.
      * intros m Hm. apply (endsAfter_earlier (clock m) hi); [|exact Hafter].
        specialize (Hclock m Hm). lia.
Qed.

(** ** Further properties of the courses per instructor *)

Lemma barTotal_bars (c : Dozenten.t -> nat) (dozenten : list Dozenten.t) :
  barTotal (map (fun d => Bar.mk (label d) (Z.of_nat (c d)))
                (filter (fun d => (0 <? c d)%nat) dozenten))
  = Z.of_nat (list_sum (map c dozenten)).
Proof.
  induction dozenten as [|d r IH]; simpl; [reflexivity|].
  destruct (Nat.ltb_spec 0 (c d)) as [Hpos|Hzero]; simpl; rewrite IH; lia.
Qed.

Lemma list_sum_cons (x : nat) (l : list nat) : list_sum (x :: l) = x + list_sum l.
Proof. reflexivity. Qed.

Lemma hits_none (id : string) (dozenten : list Dozenten.t) :
  ~ In id (map record_id dozenten) ->
  list_sum (map (fun d => if option_string_dec (Some id) (Some d.(record_id)) then 1 else 0)
                dozenten) = 0.
Proof.
  induction dozenten as [|d r IH]; cbn [map In]; [reflexivity|].
  intros Hn. rewrite list_sum_cons.
  destruct (option_string_dec (Some id) (Some (record_id d))) as [E|_].
  - exfalso. apply Hn. left. injection E as ->. reflexivity.
  - rewrite Nat.add_0_l. apply IH. intros H. apply Hn. right. exact H.
Qed.

Lemma hits_resolves (ref : option string) (dozenten : list Dozenten.t) :
  NoDup (map record_id dozenten) ->
  list_sum (map (fun d => if option_string_dec (extractRecordId ref) (Some d.(record_id))
                          then 1 else 0) dozenten)
  = if resolves ref dozenten then 1 else 0.
Proof.
  unfold resolves, resolve. destruct (extractRecordId ref) as [id|].
  - induction dozenten as [|d r IH]; cbn [map lookup]; [reflexivity|].
    intros Hnd. inversion Hnd as [|? ? Hd Hr]; subst. rewrite list_sum_cons.
    destruct (option_string_dec (Some id) (Some (record_id d))) as [E|N].
    + injection E as ->. rewrite String.eqb_refl, (hits_none _ _ Hd). reflexivity.
    + destruct (String.eqb_spec (record_id d) id) as [E|_].
      * exfalso. apply N. rewrite E. reflexivity.
      * rewrite Nat.add_0_l. apply IH. exact Hr.
  - intros _. induction dozenten as [|d r IH]; cbn [map]; [reflexivity|].
    rewrite list_sum_cons.
    destruct (option_string_dec None (Some (record_id d))); [discriminate|].
    rewrite Nat.add_0_l. exact IH.
Qed.

Lemma list_sum_map_add {A : Type} (f g : A -> nat) (l : list A) :
  list_sum (map (fun x => f x + g x) l) = list_sum (map f l) + list_sum (map g l).
Proof. induction l as [|x r IH]; simpl; [reflexivity | rewrite IH; lia]. Qed.

Lemma list_sum_map_zero {A : Type} (l : list A) : list_sum (map (fun _ => 0) l) = 0.
Proof. induction l as [|x r IH]; simpl; [reflexivity | exact IH]. Qed.

Lemma coursesOf_total (dozenten : list Dozenten.t) (kurse : list Kurse.t) :
  NoDup (map record_id dozenten) ->
  list_sum (map (coursesOf kurse) dozenten)
  = List.length (filter (fun k => resolves k.(fields).(Kurse.dozent) dozenten) kurse).
Proof.
  intros Hnd. induction kurse as [|k r IH].
  - apply list_sum_map_zero.
  - transitivity
      (list_sum (map (fun d => (if option_string_dec (extractRecordId k.(fields).(Kurse.dozent))
                                                     (Some d.(record_id)) then 1 else 0)
                               + coursesOf r d) dozenten)).
    + f_equal. apply map_ext. intros d. unfold coursesOf. cbn [map count_occ].
      destruct (option_string_dec _ _); reflexivity.
    + rewrite (list_sum_map_add
                 (fun d => if option_string_dec (extractRecordId k.(fields).(Kurse.dozent))
                                                (Some d.(record_id)) then 1 else 0)
                 (coursesOf r)).
      rewrite (hits_resolves _ _ Hnd). cbn [filter].
      destruct (resolves (Kurse.dozent (fields k)) dozenten); cbn [List.length Nat.add];
        [f_equal|]; exact IH.
Qed.

(** X8. When the identifiers of the instructors are unique, the bars add up to
    the number of courses whose instructor reference resolves to an instructor
    of the collection: every such course is counted once, a course without
    such an instructor in no bar, so the bars never add up to more than the
    number of courses. *)
Theorem kursPerDozent_counts_every_course_once
    (dozenten : list Dozenten.t) (kurse : list Kurse.t) :
  NoDup (map record_id dozenten) ->
  barTotal (kursPerDozent dozenten kurse)
  = JS.length (filter (fun k => resolves k.(fields).(Kurse.dozent) dozenten) kurse)
  /\ (barTotal (kursPerDozent dozenten kurse) <= JS.length kurse)%Z.
Proof.
  intros Hnd.
  assert (E : barTotal (kursPerDozent dozenten kurse)
              = JS.length (filter (fun k => resolves k.(fields).(Kurse.dozent) dozenten) kurse)).
  { rewrite kursPerDozent_bars, barTotal_bars, (coursesOf_total _ _ Hnd). reflexivity. }
  split; [exact E|]. rewrite E. unfold JS.length.
  apply Nat2Z.inj_le. apply filter_length_le.
Qed.

(** ** Further properties of the recent enrollments *)

Lemma StronglySorted_app_cross {A : Type} (R : A -> A -> Prop) (l1 l2 : list A) :
  StronglySorted R (l1 ++ l2) -> forall a b, In a l1 -> In b l2 -> R a b.
Proof.
  induction l1 as [|x r IH]; simpl; intros Hs a b Ha Hb; [destruct Ha|].
  inversion Hs as [|? ? Hr Hx]; subst. destruct Ha as [->|Ha].
  - rewrite Forall_forall in Hx. apply Hx. apply in_or_app. right. exact Hb.
  - exact (IH Hr a b Ha Hb).
Qed.

Lemma in_firstn {A : Type} (n : nat) (l : list A) (y : A) : In y (firstn n l) -> In y l.
Proof. intros H. rewrite <- (firstn_skipn n l). apply in_or_app. left. exact H. Qed.

Lemma StronglySorted_firstn {A : Type} (R : A -> A -> Prop) (n : nat) (l : list A) :
  StronglySorted R l -> StronglySorted R (firstn n l).
Proof.
  revert n. induction l as [|x r IH]; intros [|n] Hs; simpl; try constructor.
  - inversion Hs; subst. apply IH. assumption.
  - inversion Hs as [|? ? _ Hx]; subst. rewrite Forall_forall in *.
    intros y Hy. apply Hx. eapply in_firstn. exact Hy.
Qed.

Lemma sort_by_collation_sorted (anmeldungen : list Anmeldungen.t) :
  (forall x y, (0 < localeCompare x y)%Z -> (localeCompare y x <= 0)%Z) ->
  (forall x y z, (localeCompare x y <= 0)%Z -> (localeCompare y z <= 0)%Z ->
                 (localeCompare x z <= 0)%Z) ->
  StronglySorted (fun a b => (byAnmeldedatumDesc a b <= 0)%Z)
                 (JS.sort byAnmeldedatumDesc anmeldungen).
Proof.
  intros Htotal Htrans. apply sort_sorted.
  - intros a b. rewrite !byAnmeldedatumDesc_dateKey. apply Htotal.
  - intros a b c. rewrite !byAnmeldedatumDesc_dateKey. intros Hab Hbc.
    exact (Htrans _ _ _ Hbc Hab).
Qed.

(** X9. With a collation that is a total and transitive order, as the one of
    the host is: the enrollments are the shown ones, of which there are
    min(5, number of enrollments), and a rest, and the collation puts the date
    of none of the rest after the date of a shown one. *)
Theorem recentAnmeldungen_leaves_out_the_earliest (anmeldungen : list Anmeldungen.t) :
  (forall x y, (0 < localeCompare x y)%Z -> (localeCompare y x <= 0)%Z) ->
  (forall x y z, (localeCompare x y <= 0)%Z -> (localeCompare y z <= 0)%Z ->
                 (localeCompare x z <= 0)%Z) ->
  exists rest,
    Permutation anmeldungen (recentAnmeldungen anmeldungen ++ rest)
    /\ List.length (recentAnmeldungen anmeldungen) = Nat.min 5 (List.length anmeldungen)
    /\ (forall a b, In a (recentAnmeldungen anmeldungen) -> In b rest ->
          (localeCompare (dateKey b) (dateKey a) <= 0)%Z).
Proof.
  intros Htotal Htrans.
  exists (skipn 5 (JS.sort byAnmeldedatumDesc anmeldungen)).
  unfold recentAnmeldungen, slice0. split; [|split].
  - rewrite firstn_skipn. apply sort_perm.
  - rewrite length_firstn.
    rewrite <- (Permutation_length (sort_perm byAnmeldedatumDesc anmeldungen)). reflexivity.
  - intros a b Ha Hb. rewrite <- byAnmeldedatumDesc_dateKey.
    apply (StronglySorted_app_cross (fun a b => (byAnmeldedatumDesc a b <= 0)%Z)
             (firstn 5 (JS.sort byAnmeldedatumDesc anmeldungen))
             (skipn 5 (JS.sort byAnmeldedatumDesc anmeldungen))); [|exact Ha|exact Hb].
    rewrite firstn_skipn. apply sort_by_collation_sorted; assumption.
Qed.

(** X10. With a collation that is a total and transitive order, taking the
    recent enrollments of the recent enrollments changes nothing: they are
    sorted already, and at most five. *)
Theorem recentAnmeldungen_idempotent (anmeldungen : list Anmeldungen.t) :
  (forall x y, (0 < localeCompare x y)%Z -> (localeCompare y x <= 0)%Z) ->
  (forall x y z, (localeCompare x y <= 0)%Z -> (localeCompare y z <= 0)%Z ->
                 (localeCompare x z <= 0)%Z) ->
  recentAnmeldungen (recentAnmeldungen anmeldungen) = recentAnmeldungen anmeldungen.
Proof.
  intros Htotal Htrans. unfold recentAnmeldungen, slice0.
  rewrite sort_sorted_id.
  - rewrite firstn_firstn. reflexivity.
  - apply StronglySorted_firstn. apply sort_by_collation_sorted; assumption.
Qed.

(** ** Properties of the markup *)

Lemma JS_length_pos {A : Type} (l : list A) : (0 <? JS.length l)%Z = false <-> l = [].
Proof.
  unfold JS.length. destruct l as [|x r]; simpl; split; intros H;
    try reflexivity; try discriminate.
Qed.

Lemma map_throwing_throws {A B E : Type} (f : A -> E + B) (arr : list A) :
  (exists e, map_throwing f arr = inl e) <-> (exists x e, In x arr /\ f x = inl e).
Proof.
  induction arr as [|x r IH]; simpl.
  - split; [intros [e H]; discriminate | intros [x [e [[] _]]]].
  - destruct (f x) as [e|y] eqn:Ex.
    + split; [intros _; exists x, e; auto | intros _; exists e; reflexivity].
    + destruct (map_throwing f r) as [e|ys].
      * split; [|intros _; exists e; reflexivity].
        intros _. destruct (proj1 IH (ex_intro _ e eq_refl)) as [x' [e' [Hin Hx']]].
        exists x', e'. auto.
      * split; [intros [e H]; discriminate|].
        intros [x' [e' [[<-|Hin] Hx']]].
        -- rewrite Ex in Hx'. discriminate.
        -- destruct (proj2 IH (ex_intro _ x' (ex_intro _ e' (conj Hin Hx')))) as [e H].
           discriminate.
Qed.

Lemma map_throwing_returns {A B E : Type} (f : A -> E + B) (arr : list A) (ys : list B) :
  map_throwing f arr = inr ys -> Forall2 (fun x y => f x = inr y) arr ys.
Proof.
  revert ys. induction arr as [|x r IH]; simpl; intros ys H.
  - injection H as <-. constructor.
  - destruct (f x) as [e|y] eqn:Ex; [discriminate|].
    destruct (map_throwing f r) as [e|ys']; [discriminate|].
    injection H as <-. constructor; [exact Ex | apply IH; reflexivity].
Qed.

Lemma tableRow_throws (s : State.t) (a : Anmeldungen.t) :
  (exists e, tableRow s a = inl e) <-> dateGarbled a.
Proof.
  unfold tableRow, dateGarbled, format.
  destruct (Anmeldungen.anmeldedatum (fields a)) as [d|].
  - cbv [toBoolean ToBoolean_option ToBoolean_string].
    destruct (String.eqb_spec d "") as [->|Hd]; simpl.
    + split; [intros [e H]; discriminate|].
      intros [d [H [Hne _]]]. injection H as <-. contradiction.
    + destruct (parseISO d) as [t|] eqn:Hp.
      * split; [intros [e H]; discriminate|].
        intros [d' [H [_ Hp']]]. injection H as <-. rewrite Hp in Hp'. discriminate.
      * split; [|intros _; exists InvalidTimeValue; reflexivity].
        intros _. exists d. auto.
  - simpl. split; [intros [e H]; discriminate | intros [d [H _]]; discriminate].
Qed.

Lemma tableRow_cells (s : State.t) (a : Anmeldungen.t) (row : Row.t) :
  tableRow s a = inr row ->
  Row.teilnehmer row = getTeilnehmerName (State.teilnehmer s) a.(fields).(Anmeldungen.teilnehmer)
  /\ Row.kurs row = getKursTitel (State.kurse s) a.(fields).(Anmeldungen.kurs)
  /\ (Row.status row = "Bezahlt" <-> a.(fields).(Anmeldungen.bezahlt) = Some true)
  /\ (Row.status row = "Offen" <-> a.(fields).(Anmeldungen.bezahlt) <> Some true)
  /\ (dateKey a = "" -> Row.datum row = "-").
Proof.
  unfold tableRow.
  destruct (if toBoolean (Anmeldungen.anmeldedatum (fields a)) then _ else _) as [e|d] eqn:Ed;
    [discriminate|].
  intros H. injection H as <-. cbn [Row.teilnehmer Row.kurs Row.status Row.datum].
  split; [reflexivity|]. split; [reflexivity|].
  split; [|split].
  - destruct (Anmeldungen.bezahlt (fields a)) as [[|]|]; simpl; split; intros H;
      try reflexivity; discriminate.
  - destruct (Anmeldungen.bezahlt (fields a)) as [[|]|]; simpl; split; intros H;
      try reflexivity; try discriminate; contradiction.
  - unfold dateKey. intros Hk.
    destruct (Anmeldungen.anmeldedatum (fields a)) as [d'|]; [subst d'|];
      simpl in Ed; injection Ed as <-; reflexivity.
Qed.

(** X11. The table of recent enrollments gives way to its text exactly when
    there is no enrollment at all. When it is shown it has one row for each
    recent enrollment, in their order: min(5, number of enrollments) rows, each
    with the looked-up participant and course, with ["-"] for a missing date,
    and marked ["Bezahlt"] exactly when the paid flag is true and ["Offen"]
    otherwise. *)
Theorem tablePanel_rows (s : State.t) :
  (tablePanel s = inr (Placeholder "Noch keine Anmeldungen vorhanden")
     <-> State.anmeldungen s = [])
  /\ (forall rows, tablePanel s = inr (Filled rows) ->
        List.length rows = Nat.min 5 (List.length (State.anmeldungen s))
        /\ Forall2 (fun a row =>
             Row.teilnehmer row
               = getTeilnehmerName (State.teilnehmer s) a.(fields).(Anmeldungen.teilnehmer)
             /\ Row.kurs row = getKursTitel (State.kurse s) a.(fields).(Anmeldungen.kurs)
             /\ (Row.status row = "Bezahlt" <-> a.(fields).(Anmeldungen.bezahlt) = Some true)
             /\ (Row.status row = "Offen" <-> a.(fields).(Anmeldungen.bezahlt) <> Some true)
             /\ (dateKey a = "" -> Row.datum row = "-"))
           (recentAnmeldungen (State.anmeldungen s)) rows).
Proof.
  assert (Hlen : List.length (recentAnmeldungen (State.anmeldungen s))
                 = Nat.min 5 (List.length (State.anmeldungen s))).
  { unfold recentAnmeldungen, slice0. rewrite length_firstn.
    rewrite <- (Permutation_length (sort_perm byAnmeldedatumDesc (State.anmeldungen s))).
    reflexivity. }
  unfold tablePanel. split.
  - destruct (0 <? JS.length (recentAnmeldungen (State.anmeldungen s)))%Z eqn:Hpos.
    + split.
      * destruct (map_throwing _ _); discriminate.
      * intros Hnil. rewrite Hnil in Hpos. discriminate.
    + split; [|reflexivity]. intros _. apply JS_length_pos in Hpos.
      apply (f_equal (@List.length _)) in Hpos. rewrite Hlen in Hpos. simpl in Hpos.
      destruct (State.anmeldungen s); [reflexivity | discriminate].
  - intros rows. destruct (0 <? JS.length _)%Z; [|discriminate].
    destruct (map_throwing _ _) as [e|rows'] eqn:Hm; [discriminate|].
    intros H. injection H as <-. apply map_throwing_returns in Hm. split.
    + rewrite <- Hlen. symmetry. eapply Forall2_length. exact Hm.
    + eapply Forall2_impl; [|exact Hm]. intros a row. apply tableRow_cells.
Qed.

(** X12. Rendering the table throws exactly when one of the enrollments it
    shows has a registration date that is not empty and that [parseISO] takes
    for no date ([format] throws on it); an enrollment that is not among the
    recent five cannot make it throw. *)
Theorem tablePanel_throws_on_garbled_date (s : State.t) :
  tablePanel s = inl InvalidTimeValue
  <-> exists a, In a (recentAnmeldungen (State.anmeldungen s)) /\ dateGarbled a.
Proof.
  unfold tablePanel. split.
  - destruct (0 <? JS.length _)%Z; [|discriminate].
    destruct (map_throwing _ _) as [e|rows] eqn:Hm; [|discriminate]. intros _.
    destruct (proj1 (map_throwing_throws _ _) (ex_intro _ e Hm)) as [a [e' [Hin Ha]]].
    exists a. split; [exact Hin|]. apply (tableRow_throws s). exists e'. exact Ha.
  - intros [a [Hin Ha]].
    destruct (0 <? JS.length (recentAnmeldungen (State.anmeldungen s)))%Z eqn:Hpos.
    + apply (tableRow_throws s) in Ha. destruct Ha as [e Ha].
      destruct (proj2 (map_throwing_throws (tableRow s) _)
                  (ex_intro _ a (ex_intro _ e (conj Hin Ha)))) as [[] Hm].
      rewrite Hm. reflexivity.
    + apply JS_length_pos in Hpos. rewrite Hpos in Hin. destruct Hin.
Qed.




(** X15. Before the loader has run, every figure of the hero and of the KPI
    cards is ["-"]. After a load in which a request was rejected every figure
    is the number 0 (the revenue the text of 0), not ["-"], and the bar chart,
    the pie and the table give way to their texts: the page is that of an
    empty store. *)
Theorem figures_before_and_after_a_failed_load {Err : Type}
    (service : LivingAppsService.t Err) (n : nat) :
  rejections service <> [] ->
  (heroAktiveKurse State.initial n = Txt "-"
   /\ heroAnmeldungen State.initial = Txt "-"
   /\ heroTeilnehmer State.initial = Txt "-"
   /\ heroGesamtumsatz State.initial = Txt "-"
   /\ kpiDozenten State.initial = Txt "-"
   /\ kpiRaeume State.initial = Txt "-"
   /\ kpiTeilnehmer State.initial = Txt "-"
   /\ kpiKurse State.initial = Txt "-"
   /\ kpiAnmeldungen State.initial = Txt "-")
  /\ (heroAktiveKurse (state (mounted service)) n = Num 0
      /\ heroAnmeldungen (state (mounted service)) = Num 0
      /\ heroTeilnehmer (state (mounted service)) = Num 0
      /\ heroGesamtumsatz (state (mounted service)) = Txt (toLocaleString 0%float)
      /\ kpiDozenten (state (mounted service)) = Num 0
      /\ kpiRaeume (state (mounted service)) = Num 0
      /\ kpiTeilnehmer (state (mounted service)) = Num 0
      /\ kpiKurse (state (mounted service)) = Num 0
      /\ kpiAnmeldungen (state (mounted service)) = Num 0
      /\ barPanel (state (mounted service)) = Placeholder "Keine Daten vorhanden"
      /\ piePanel (state (mounted service)) = Placeholder "Keine Daten vorhanden"
      /\ tablePanel (state (mounted service))
         = inr (Placeholder "Noch keine Anmeldungen vorhanden")).
Proof.
  intros Hsome. destruct (loadData_rejected service Hsome) as [e [_ Hw]].
  rewrite Hw. cbn [state]. split; repeat split; reflexivity.
Qed.

End Dashboard.

(** ** The contract of the identifier extractor *)

(** C8. Against the contract of section 4.1: the extractor returns one result
    for every optional string, the absent and the empty one included; the result
    is absent exactly when the input is absent or empty or holds no recognizable
    identifier, and the recognized identifier otherwise. *)
Theorem extractId_total_absent_without_identifier (recognise : string -> option string) :
  (forall ref, exists! out, extractId recognise ref = out)
  /\ extractId recognise None = None
  /\ extractId recognise (Some "") = None
  /\ (forall s, recognise s = None -> extractId recognise (Some s) = None)
  /\ (forall s id, s <> "" -> recognise s = Some id -> extractId recognise (Some s) = Some id)
  /\ (forall ref, extractId recognise ref = None ->
        ref = None \/ ref = Some "" \/ exists s, ref = Some s /\ recognise s = None).
Proof.
  split; [|split; [|split; [|split; [|split]]]].
  - intros ref. exists (extractId recognise ref). split; [reflexivity | intros out H; exact H].
  - reflexivity.
  - reflexivity.
  - intros s H. unfold extractId. destruct (String.eqb s ""); [reflexivity | exact H].
  - intros s id Hs H. unfold extractId.
    destruct (String.eqb_spec s ""); [contradiction | exact H].
  - intros [s|] H; [|left; reflexivity]. right. unfold extractId in H.
    destruct (String.eqb_spec s "") as [E|Hs]; [left; rewrite E; reflexivity|].
    right. exists s. split; [reflexivity | exact H].
Qed.

(** ** The component on the sample store *)

(** The first scenario of the specification: two courses at 100 and 50, three
    enrollments for the first, the first and the second course, paid, open
    and paid. *)
Example scenario_revenue_and_payments :
  totalRevenue Sample.extractRecordId [Sample.kursA; Sample.kursB] Sample.anmeldungen
  = 250%float
  /\ paidCount Sample.anmeldungen = 2%Z
  /\ unpaidCount Sample.anmeldungen = 1%Z.
Proof. repeat split; reflexivity. Qed.

(** The second scenario: two instructors and no course. *)
Example scenario_no_courses :
  kursPerDozent Sample.extractRecordId [Sample.anna; Sample.bernd] [] = [].
Proof. reflexivity. Qed.

(** The third scenario, with a tie and a missing date: six enrollments, of
    which the five latest are shown, the one without a date being dropped and
    the two of one day keeping their order. *)
Example scenario_recent :
  map record_id (recentAnmeldungen Sample.collate Sample.alleAnmeldungen)
  = ["a4"; "a2"; "a3"; "a6"; "a1"].
Proof. reflexivity. Qed.

Example sample_bars :
  kursPerDozent Sample.extractRecordId Sample.dozenten Sample.kurse
  = [Bar.mk "Anna" 1; Bar.mk "Bernd" 1].
Proof. reflexivity. Qed.

Example sample_load :
  mounted Sample.serviceUp
  = mkWorld (State.mk Sample.dozenten [] Sample.teilnehmer Sample.kurse
                      Sample.alleAnmeldungen false)
            requests.
Proof. reflexivity. Qed.

(** C1 on the sample store: the first enrollment resolves to the course at
    100, the fifth to no course; the six enrollments yield 300. *)
Lemma totalRevenue_sample :
  resolve Sample.extractRecordId (Anmeldungen.kurs (fields Sample.a1)) Sample.kurse
  = Some Sample.kursA
  /\ revenueOf Sample.extractRecordId Sample.kurse Sample.a1 = 100%float
  /\ revenueOf Sample.extractRecordId Sample.kurse Sample.a5 = 0%float
  /\ totalRevenue Sample.extractRecordId Sample.kurse Sample.alleAnmeldungen = 300%float.
Proof.
  destruct (totalRevenue_is_sum_of_resolved_prices Sample.extractRecordId Sample.kurse
              Sample.alleAnmeldungen) as [Hsum [Hnone [Hsome [_ _]]]].
  split; [reflexivity|]. split; [|split].
  - apply (Hsome Sample.a1 Sample.kursA 100%float); reflexivity.
  - apply (Hnone Sample.a5). reflexivity.
  - rewrite Hsum. reflexivity.
Defined.

(** C9 on the sample store: the fourth enrollment is for the course without a
    price. *)
Lemma totalRevenue_missing_price_sample :
  resolve Sample.extractRecordId (Anmeldungen.kurs (fields Sample.a4)) Sample.kurse
  = Some Sample.kursFrei
  /\ Kurse.preis (fields Sample.kursFrei) = None
  /\ revenueOf Sample.extractRecordId Sample.kurse Sample.a4 = 0%float
  /\ totalRevenue Sample.extractRecordId Sample.kurse (Sample.anmeldungen ++ [Sample.a4])
     = (totalRevenue Sample.extractRecordId Sample.kurse Sample.anmeldungen + 0)%float.
Proof.
  split; [reflexivity|]. split; [reflexivity|].
  apply (totalRevenue_missing_price_adds_zero Sample.extractRecordId Sample.kurse
           Sample.anmeldungen Sample.a4 Sample.kursFrei).
  - reflexivity.
  - left. reflexivity.
Defined.

(** C5 on the sample store: the filter starts at the fourth reading of a clock
    that shows 2 November 2026 on the two readings the filter takes, and other
    instants before and after; only the course that ends in 2031 is active. *)
Lemma activeKurse_sample :
  Sample.parseISO "" = None
  /\ dated Sample.kurse = 2
  /\ (forall m, 3 <= m < 3 + dated Sample.kurse -> Sample.uhr m = Sample.now)
  /\ fst (activeKurse Sample.parseISO Sample.uhr Sample.kurse 3)
     = filter (endsAfter Sample.parseISO Sample.now) Sample.kurse
  /\ ~ In Sample.kursFrei (fst (activeKurse Sample.parseISO Sample.uhr Sample.kurse 3)).
Proof.
  assert (Hclock : forall m, 3 <= m < 3 + dated Sample.kurse -> Sample.uhr m = Sample.now).
  { intros m Hm. change (dated Sample.kurse) with 2 in Hm.
    assert (E : m = 3 \/ m = 4) by lia. destruct E as [->| ->]; reflexivity. }
  destruct (activeKurse_keeps_courses_ending_later Sample.parseISO Sample.uhr
              Sample.kurse 3) as [Hkeep [Hdrop _]].
  split; [reflexivity|]. split; [reflexivity|]. split; [exact Hclock|]. split.
  - apply (Hkeep Sample.now); [reflexivity | exact Hclock].
  - apply Hdrop. reflexivity.
Defined.

(** C6 on the sample store: the course and the enrollment requests fail, the
    latter first. *)
Lemma failed_load_sample :
  rejections Sample.serviceDown = ["503 kurse"; "503 anmeldungen"]
  /\ state (mounted Sample.serviceDown) = State.mk [] [] [] [] [] false
  /\ trace (mounted Sample.serviceDown)
     = requests ++ [ConsoleError "Failed to load:" "503 anmeldungen"].
Proof.
  split; [reflexivity|]. split; [|reflexivity].
  apply (failed_load_shows_empty_dashboard Sample.extractRecordId Sample.parseISO
           Sample.clock Sample.collate Sample.serviceDown 0).
  discriminate.
Defined.

(** C7 on the sample store: a reference to a participant who is not in the
    store, and one to a participant who is. *)
Lemma lookups_sample :
  resolve Sample.extractRecordId (Sample.refTeilnehmer "t9") Sample.teilnehmer = None
  /\ getTeilnehmerName Sample.extractRecordId Sample.teilnehmer (Sample.refTeilnehmer "t9")
     = "-"
  /\ getTeilnehmerName Sample.extractRecordId Sample.teilnehmer (Sample.refTeilnehmer "t1")
     = "Clara Vogel".
Proof.
  split; [reflexivity|]. split.
  - apply (proj1 (lookups_fall_back_when_unresolved Sample.extractRecordId
                    Sample.teilnehmer Sample.kurse (Sample.refTeilnehmer "t9"))).
    reflexivity.
  - reflexivity.
Defined.

(** C10 on the sample store: a participant without a name and a course with
    an empty title. *)
Lemma lookups_missing_label_sample :
  resolve Sample.extractRecordId (Sample.refTeilnehmer "t2") Sample.teilnehmer
  = Some Sample.namenlos
  /\ resolve Sample.extractRecordId (Sample.refKurs "kC") Sample.kurse = Some Sample.kursFrei
  /\ getTeilnehmerName Sample.extractRecordId Sample.teilnehmer (Sample.refTeilnehmer "t2")
     = "-"
  /\ getKursTitel Sample.extractRecordId Sample.kurse (Sample.refKurs "kC") = "-".
Proof.
  split; [reflexivity|]. split; [reflexivity|]. split.
  - apply (proj1 (lookups_fall_back_when_label_missing Sample.extractRecordId
                    Sample.teilnehmer Sample.kurse (Sample.refTeilnehmer "t2"))
             Sample.namenlos); [reflexivity | left; reflexivity].
  - apply (proj2 (lookups_fall_back_when_label_missing Sample.extractRecordId
                    Sample.teilnehmer Sample.kurse (Sample.refKurs "kC"))
             Sample.kursFrei); [reflexivity | right; reflexivity].
Defined.

Lemma sample_dates_agree : agreesOnDates Sample.collate Sample.alleAnmeldungen.
Proof.
  intros a b Ha Hb. simpl in Ha, Hb.
  repeat (destruct Ha as [<-|Ha]; [|]); try (destruct Ha);
    repeat (destruct Hb as [<-|Hb]; [|]); try (destruct Hb); reflexivity.
Defined.

(** C3 on the sample store: dates of the shape of a calendar date, and one
    enrollment without a date. *)
Lemma recentAnmeldungen_sample :
  agreesOnDates Sample.collate Sample.alleAnmeldungen
  /\ exists sorted,
       recentAnmeldungen Sample.collate Sample.alleAnmeldungen = firstn 5 sorted
       /\ Permutation Sample.alleAnmeldungen sorted
       /\ StronglySorted notEarlier sorted.
Proof.
  split; [exact sample_dates_agree|].
  destruct (proj1 (recentAnmeldungen_first_five_latest_first Sample.collate
                     Sample.alleAnmeldungen) sample_dates_agree)
    as [sorted [H1 [H2 [H3 _]]]].
  exists sorted. split; [exact H1|]. split; [exact H2 | exact H3].
Defined.

(** C3, as the specification words it, fails: of two dates of one morning,
    written with and without seconds, the one with seconds is the later one in
    the order of the character codes ([:] after [+]), and the collation, which
    has [:] before [+], puts it last. *)
Lemma recentAnmeldungen_not_by_character_codes :
  recentAnmeldungen Sample.collate [Sample.mitSekunden; Sample.ohneSekunden]
  = [Sample.ohneSekunden; Sample.mitSekunden]
  /\ String.ltb (dateKey Sample.ohneSekunden) (dateKey Sample.mitSekunden) = true
  /\ ~ StronglySorted notEarlier
         (recentAnmeldungen Sample.collate [Sample.mitSekunden; Sample.ohneSekunden]).
Proof.
  split; [reflexivity|]. split; [reflexivity|].
  intros H. inversion H as [|? ? _ Hall]; subst.
  inversion Hall as [|? ? Hne _]; subst. vm_compute in Hne. discriminate Hne.
Qed.

(** C4, as the specification words it, fails: for an instructor whose name
    starts with a space the bar is labelled with the fallback although the
    name is present, and not with the first token of the name; and a tab in
    the name does not end the label. *)
Lemma kursPerDozent_label_is_not_first_token :
  (Dozenten.name (fields Sample.annaIndented) = Some " Anna Schmidt"
   /\ kursPerDozent Sample.extractRecordId [Sample.annaIndented] Sample.kurse
      = [Bar.mk "N/A" 1]
   /\ labelAsWorded Sample.annaIndented = "Anna"
   /\ kursPerDozent Sample.extractRecordId [Sample.annaIndented] Sample.kurse
      <> [Bar.mk (labelAsWorded Sample.annaIndented) 1])
  /\ (kursPerDozent Sample.extractRecordId [Sample.annaTabbed] Sample.kurse
      = [Bar.mk ("Anna" ++ String "009"%char "Schmidt")%string 1]
      /\ labelAsWorded Sample.annaTabbed = "Anna"
      /\ kursPerDozent Sample.extractRecordId [Sample.annaTabbed] Sample.kurse
         <> [Bar.mk (labelAsWorded Sample.annaTabbed) 1]).
Proof.
  split.
  - split; [reflexivity|]. split; [reflexivity|]. split; [reflexivity|].
    intros H. vm_compute in H. discriminate H.
  - split; [reflexivity|]. split; [reflexivity|].
    intros H. vm_compute in H. discriminate H.
Qed.

(** ** The further properties on the sample store *)

Example sample_table :
  tablePanel Sample.extractRecordId Sample.parseISO Sample.ddMMyyyy Sample.collate
             (State.mk Sample.dozenten [] Sample.teilnehmer Sample.kurse
                       [Sample.a5; Sample.a1Offen] false)
  = inr (Filled [Row.mk "-" "-" "-" "bg-green-100 text-green-800" "Bezahlt";
                 Row.mk "-" "Beweisen mit Rocq" "-" "bg-amber-100 text-amber-800" "Offen"]).
Proof. reflexivity. Qed.

Example sample_table_throws :
  tablePanel Sample.extractRecordId Sample.parseISO Sample.ddMMyyyy Sample.collate
             (State.mk Sample.dozenten [] Sample.teilnehmer Sample.kurse
                       [Sample.a5; Sample.a7] false)
  = inl InvalidTimeValue.
Proof. reflexivity. Qed.

(** X1 on the sample store. *)
Lemma loadData_stores_sample :
  mounted Sample.serviceUp
  = mkWorld (State.mk Sample.dozenten [] Sample.teilnehmer Sample.kurse
                      Sample.alleAnmeldungen false)
            requests.
Proof.
  apply (loadData_stores_what_was_fetched Sample.serviceUp); reflexivity.
Defined.

(** X3 on the sample store: the same course, another participant, no date and
    not paid. *)
Lemma totalRevenue_references_sample :
  map (fun a => Anmeldungen.kurs (fields a)) [Sample.a1]
  = map (fun a => Anmeldungen.kurs (fields a)) [Sample.a1Offen]
  /\ Sample.a1 <> Sample.a1Offen
  /\ totalRevenue Sample.extractRecordId Sample.kurse [Sample.a1]
     = totalRevenue Sample.extractRecordId Sample.kurse [Sample.a1Offen].
Proof.
  split; [reflexivity|]. split; [discriminate|].
  apply (totalRevenue_reads_course_references_only Sample.extractRecordId Sample.kurse
           [Sample.a1] [Sample.a1Offen]).
  reflexivity.
Defined.

Lemma sample_kurse_NoDup : NoDup (map record_id Sample.kurse).
Proof.
  repeat constructor; simpl; intros H;
    repeat (destruct H as [H|H]; [discriminate H|]); exact H.
Defined.

Lemma sample_dozenten_NoDup : NoDup (map record_id Sample.dozenten).
Proof.
  repeat constructor; simpl; intros H;
    repeat (destruct H as [H|H]; [discriminate H|]); exact H.
Defined.

Lemma sample_teilnehmer_NoDup : NoDup (map record_id Sample.teilnehmer).
Proof.
  repeat constructor; simpl; intros H;
    repeat (destruct H as [H|H]; [discriminate H|]); exact H.
Defined.

(** X4 on the sample store: the courses in reverse order. *)
Lemma totalRevenue_order_sample :
  NoDup (map record_id Sample.kurse)
  /\ Permutation Sample.kurse (rev Sample.kurse)
  /\ totalRevenue Sample.extractRecordId Sample.kurse Sample.alleAnmeldungen
     = totalRevenue Sample.extractRecordId (rev Sample.kurse) Sample.alleAnmeldungen.
Proof.
  split; [exact sample_kurse_NoDup|]. split; [apply Permutation_rev|].
  apply (totalRevenue_any_order_of_courses Sample.extractRecordId Sample.kurse
           (rev Sample.kurse) Sample.alleAnmeldungen sample_kurse_NoDup).
  apply Permutation_rev.
Defined.

(** X5 on the sample store: the second of two participants. *)
Lemma lookups_find_sample :
  In Sample.clara (rev Sample.teilnehmer)
  /\ getTeilnehmerName Sample.extractRecordId (rev Sample.teilnehmer)
       (Sample.refTeilnehmer "t1") = "Clara Vogel".
Proof.
  split; [right; left; reflexivity|].
  apply (proj1 (lookups_find_the_record Sample.extractRecordId (rev Sample.teilnehmer)
                  Sample.kurse (Sample.refTeilnehmer "t1")) Sample.clara "Clara Vogel").
  - rewrite map_rev. apply NoDup_rev. exact sample_teilnehmer_NoDup.
  - right. left. reflexivity.
  - reflexivity.
  - reflexivity.
  - discriminate.
Defined.

(** X6 on the sample store: an end date in words, read by a running clock. *)
Lemma activeKurse_no_date_sample :
  Kurse.enddatum (fields Sample.kursOhneDatum) = Some "demnaechst"
  /\ Sample.parseISO "demnaechst" = None
  /\ ~ In Sample.kursOhneDatum
         (fst (activeKurse Sample.parseISO Sample.ticking
                 [Sample.kursA; Sample.kursOhneDatum; Sample.kursLeeresDatum] 0)).
Proof.
  split; [reflexivity|]. split; [reflexivity|].
  apply (activeKurse_drops_what_is_no_date Sample.parseISO Sample.ticking).
  right. exists "demnaechst". split; reflexivity.
Defined.

(** X7 on the sample store: a clock that keeps running; the filter takes its
    first two readings. *)
Lemma activeKurse_running_clock_sample :
  (forall m, 0 <= m < 0 + dated Sample.kurse ->
     (Sample.now <= Sample.laufend m <= Sample.now + 1)%Z)
  /\ snd (activeKurse Sample.parseISO Sample.laufend Sample.kurse 0) = 2
  /\ In Sample.kursA (fst (activeKurse Sample.parseISO Sample.laufend Sample.kurse 0)).
Proof.
  assert (H : forall m, 0 <= m < 0 + dated Sample.kurse ->
                (Sample.now <= Sample.laufend m <= Sample.now + 1)%Z).
  { intros m Hm. change (dated Sample.kurse) with 2 in Hm. unfold Sample.laufend. lia. }
  destruct (activeKurse_between_clock_readings Sample.parseISO Sample.laufend
              Sample.kurse 0) as [Hcount [_ Hbounds]].
  split; [exact H|]. split; [rewrite Hcount; reflexivity|].
  apply (proj2 (Hbounds Sample.now (Sample.now + 1)%Z H)).
  - left. reflexivity.
  - discriminate.
  - reflexivity.
Defined.

(** X8 on the sample store: two of four courses have an instructor of the
    collection. *)
Lemma kursPerDozent_total_sample :
  NoDup (map record_id Sample.dozenten)
  /\ barTotal (kursPerDozent Sample.extractRecordId Sample.dozenten
                 (Sample.kurse ++ [Sample.kursOhneDatum])) = 2%Z
  /\ JS.length (Sample.kurse ++ [Sample.kursOhneDatum]) = 4%Z.
Proof.
  split; [exact sample_dozenten_NoDup|]. split; [|reflexivity].
  rewrite (proj1 (kursPerDozent_counts_every_course_once Sample.extractRecordId
                    Sample.dozenten (Sample.kurse ++ [Sample.kursOhneDatum])
                    sample_dozenten_NoDup)).
  reflexivity.
Defined.

(** X15 on the sample store. *)
Lemma figures_failed_load_sample :
  rejections Sample.serviceDown <> []
  /\ heroAktiveKurse Sample.parseISO Sample.clock (state (mounted Sample.serviceDown)) 0
     = Num 0
  /\ heroGesamtumsatz Sample.extractRecordId Sample.toLocaleString
       (state (mounted Sample.serviceDown)) = Txt "0".
Proof.
  assert (H : rejections Sample.serviceDown <> []) by discriminate.
  split; [exact H|].
  destruct (figures_before_and_after_a_failed_load Sample.extractRecordId Sample.parseISO
              Sample.clock Sample.toLocaleString Sample.ddMMyyyy Sample.collate
              Sample.serviceDown 0 H)
    as [_ [H1 [_ [_ [H4 _]]]]].
  split; [exact H1 | exact H4].
Defined.

(** X9 on the sample store, with the order of the character codes as the
    collation. *)
Lemma recentAnmeldungen_rest_sample :
  exists rest,
    Permutation Sample.alleAnmeldungen
                (recentAnmeldungen charCodeCompare Sample.alleAnmeldungen ++ rest)
    /\ List.length (recentAnmeldungen charCodeCompare Sample.alleAnmeldungen) = 5.
Proof.
  destruct (recentAnmeldungen_leaves_out_the_earliest charCodeCompare Sample.alleAnmeldungen
              charCodeCompare_total charCodeCompare_trans) as [rest [H1 [H2 _]]].
  exists rest. split; [exact H1 | exact H2].
Defined.

(** X10 on the sample store, with the order of the character codes as the
    collation. *)
Lemma recentAnmeldungen_idempotent_sample :
  recentAnmeldungen charCodeCompare
    (recentAnmeldungen charCodeCompare Sample.alleAnmeldungen)
  = recentAnmeldungen charCodeCompare Sample.alleAnmeldungen.
Proof.
  apply (recentAnmeldungen_idempotent charCodeCompare Sample.alleAnmeldungen
           charCodeCompare_total charCodeCompare_trans).
Defined.
